(** * MarketPulse: ingestion, deduplication, consensus and delivery core

    A shallow embedding of the Python modules [src/intelligence.py]
    (NewsAggregator, FundamentalAnalyst), [src/controller.py] (the delivery
    queue of Controller) and [src/backend.py] (the universe manager and the
    two-tier news deduplication of MarketStream / LocalBrain).

    Modelling conventions.
    - Python [str] is [string]; [str.upper] and [str.strip] are modelled on
      ASCII text.
    - Wall-clock instants ([time.time()]) are rationals [Q]; the rounding of
      float subtraction is not modelled.
    - A Python [float] field that is compared against constants is a
      [PyFloat]: a finite value (its exact rational), an infinity or NaN.
    - The SQLite store [LocalBrain] is part of the MarketStream state: the
      [settings] table, the [tickers] table and the [seen_news] table.
    - External collaborators (the narrative agent, yfinance probes, the
      random number generator) are inputs of the operations. *)

From Stdlib Require Import QArith Lqa ZArith Lia.
From stdpp Require Import base list gmap strings.

Open Scope string_scope.

(** ** Python string helpers *)

Definition ascii_upper (c : Ascii.ascii) : Ascii.ascii :=
  let n := Ascii.nat_of_ascii c in
  if (97 <=? n)%nat && (n <=? 122)%nat then Ascii.ascii_of_nat (n - 32) else c.

(** [s.upper()] *)
Fixpoint str_upper (s : string) : string :=
  match s with
  | EmptyString => EmptyString
  | String c rest => String (ascii_upper c) (str_upper rest)
  end.

Definition is_space (c : Ascii.ascii) : bool :=
  let n := Ascii.nat_of_ascii c in
  (n =? 32)%nat || ((9 <=? n)%nat && (n <=? 13)%nat).

Fixpoint lstrip (s : string) : string :=
  match s with
  | EmptyString => EmptyString
  | String c rest => if is_space c then lstrip rest else s
  end.

Fixpoint str_rev (s : string) (acc : string) : string :=
  match s with
  | EmptyString => acc
  | String c rest => str_rev rest (String c acc)
  end.

(** [s.strip()] *)
Definition str_strip (s : string) : string :=
  str_rev (lstrip (str_rev (lstrip s) EmptyString)) EmptyString.

(** [needle in hay] for two strings *)
Fixpoint str_contains (needle hay : string) : bool :=
  match hay with
  | EmptyString => String.prefix needle hay
  | String _ rest => String.prefix needle hay || str_contains needle rest
  end.

(** Truthiness of an [Optional[str]]: [None] and [""] are false. *)
Definition opt_str_truthy (o : option string) : bool :=
  match o with
  | Some s => negb (String.eqb s "")
  | None => false
  end.

(** [x in xs] on a list of strings *)
Definition str_in (x : string) (xs : list string) : bool :=
  existsb (String.eqb x) xs.

(** Python exceptions raised by the modelled code. *)
Inductive PyExc :=
  | AttributeError (name : string)
  | TypeError (msg : string).

(** ** intelligence.py: NewsAggregator *)

Record VerifiedNews := mkVerifiedNews {
  vn_symbol : string;
  vn_headline : string;
  vn_sources : list string;
  vn_sentiment : string;
  vn_timestamp : Q;
  vn_summary : option string;
  vn_all_summaries : list string;
  vn_impact : string
}.

(** One buffered report: the dict [{'source', 'headline', 'sentiment',
    'summary', 'time'}]. *)
Record Entry := mkEntry {
  e_source : string;
  e_headline : string;
  e_sentiment : string;
  e_summary : option string;
  e_time : Q
}.

Record NewsAggregator := mkNewsAggregator {
  threshold : Z;
  buffer : gmap string (list Entry);   (* self._buffer *)
  ttl : Q
}.

(** [NewsAggregator(consensus_threshold)] *)
Definition new_aggregator (consensus_threshold : Z) : NewsAggregator :=
  mkNewsAggregator consensus_threshold ∅ 30.

Definition critical_terms : list string :=
  ["BANKRUPTCY"; "HALT"; "ACQUISITION"; "MERGER"; "GUIDANCE LOWERED";
   "FDA APPROVAL"; "CRASH"].

Definition high_terms : list string :=
  ["EARNINGS"; "REVENUE"; "GROWTH"; "SURGE"; "RECORD"; "BEATS"; "MISSES";
   "GUIDANCE"].

(** [NewsAggregator._analyze_impact] *)
Definition _analyze_impact (headline : string) (summary : option string) : string :=
  let s := match summary with Some s => s | None => "" end in
  let text := str_upper (headline ++ " " ++ s) in
  if existsb (fun term => str_contains term text) critical_terms then "CRITICAL"
  else if existsb (fun term => str_contains term text) high_terms then "HIGH"
  else "NORMAL".

(** [now - n['time'] < self.ttl] *)
Definition not_expired (ttl now : Q) (n : Entry) : bool :=
  if Qlt_le_dec (now - e_time n) ttl then true else false.

(** [max(xs, key=len)]: the first element of maximal length. *)
Definition max_by_len (xs : list string) : option string :=
  match xs with
  | [] => None
  | x :: rest =>
      Some (fold_left (fun best s =>
              if (String.length best <? String.length s)%nat then s else best)
            rest x)
  end.

Definition set_buffer (agg : NewsAggregator) (b : gmap string (list Entry))
  : NewsAggregator :=
  mkNewsAggregator (threshold agg) b (ttl agg).

(** [NewsAggregator.process source symbol headline sentiment summary],
    called at instant [now]; returns the result and the new aggregator. *)
Definition process (agg : NewsAggregator) (now : Q) (source symbol headline
    sentiment : string) (summary : option string)
    : option VerifiedNews * NewsAggregator :=
  let b0 := match buffer agg !! symbol with Some l => l | None => [] end in
  let b1 := List.filter (not_expired (ttl agg) now) b0 in
  if existsb (fun n => String.eqb (e_source n) source) b1 then
    (None, set_buffer agg (<[symbol := b1]> (buffer agg)))
  else
    let b2 := app b1 [mkEntry source headline sentiment summary now] in
    if (threshold agg <=? Z.of_nat (length b2))%Z then
      let sources := map e_source b2 in
      let all_summaries :=
        flat_map (fun n => match e_summary n with
                           | Some s => if opt_str_truthy (Some s) then [s] else []
                           | None => []
                           end) b2 in
      let best_summary := max_by_len all_summaries in
      let impact := _analyze_impact headline best_summary in
      (Some (mkVerifiedNews symbol headline sources sentiment now best_summary
               all_summaries impact),
       set_buffer agg (<[symbol := []]> (buffer agg)))
    else
      (None, set_buffer agg (<[symbol := b2]> (buffer agg))).

(** The attributes of a [NewsAggregator] instance that are methods.  The
    class defines [__init__], [_analyze_impact] and [process] only. *)
Inductive AggMethod := M_init | M_analyze_impact | M_process.

Definition agg_getattr (name : string) : option AggMethod :=
  if String.eqb name "__init__" then Some M_init
  else if String.eqb name "_analyze_impact" then Some M_analyze_impact
  else if String.eqb name "process" then Some M_process
  else None.

(** [self.news_aggregator.flush(timeout=...)]: attribute lookup, then the
    call.  None of the class's methods accepts a [timeout] keyword. *)
Definition call_flush (agg : NewsAggregator) (timeout : Q)
    : PyExc + (list VerifiedNews * NewsAggregator) :=
  match agg_getattr "flush" with
  | None => inl (AttributeError "flush")
  | Some _ => inl (TypeError "unexpected keyword argument 'timeout'")
  end.

(** ** intelligence.py: FundamentalAnalyst *)

(** A Python [float]: a finite double (its exact value), an infinity, NaN. *)
Inductive PyFloat :=
  | Fin (q : Q)
  | PosInf
  | NegInf
  | NaN.

(** [x > y] and [x < y] under IEEE 754: every comparison with NaN is false. *)
Definition flt_gt (x y : PyFloat) : bool :=
  match x, y with
  | NaN, _ | _, NaN => false
  | Fin a, Fin b => if Qlt_le_dec b a then true else false
  | PosInf, PosInf => false
  | PosInf, _ => true
  | _, NegInf => negb (match x with NegInf => true | _ => false end)
  | _, _ => false
  end.

Definition flt_lt (x y : PyFloat) : bool := flt_gt y x.

(** The literals of [FundamentalAnalyst.analyze], as the doubles they denote:
    [0.10] is 3602879701896397 / 2^55 and [0.15] is 5404319552844595 / 2^55. *)
Definition lit_0_10 : PyFloat := Fin (3602879701896397 # 36028797018963968).
Definition lit_0_15 : PyFloat := Fin (5404319552844595 # 36028797018963968).
Definition lit_2_0 : PyFloat := Fin 2.
Definition lit_0 : PyFloat := Fin 0.

Record FundamentalData := mkFundamentalData {
  revenue_growth : PyFloat;
  net_margin : PyFloat;
  debt_to_equity : PyFloat;
  guidance : string
}.

(** [FundamentalAnalyst.analyze]: the ["score"] and the list [reasons] whose
    [", ".join] is the ["summary"]. *)
Definition analyze (data : FundamentalData) : Z * list string :=
  let '(score, reasons) :=
    if flt_gt (revenue_growth data) lit_0_10 then (50 + 20, ["High Growth"])%Z
    else if flt_lt (revenue_growth data) lit_0 then (50 - 20, ["Revenue Shrinking"])%Z
    else (50%Z, []) in
  let '(score, reasons) :=
    if flt_gt (net_margin data) lit_0_15 then (score + 15, app reasons ["High Margins"])%Z
    else (score, reasons) in
  let '(score, reasons) :=
    if flt_gt (debt_to_equity data) lit_2_0 then (score - 15, app reasons ["High Debt"])%Z
    else (score, reasons) in
  let '(score, reasons) :=
    if String.eqb (guidance data) "RAISED" then (score + 25, app reasons ["Guidance Raised"])%Z
    else if String.eqb (guidance data) "LOWERED" then
      (score - 30, app reasons ["Guidance Lowered !!"])%Z
    else (score, reasons) in
  (Z.max 0 (Z.min 100 score), reasons).

(** The score as the documentation of the analyst describes it: 50 plus one
    independent adjustment per rule, clamped to [0, 100]. *)
Definition spec_score (data : FundamentalData) : Z :=
  let adj (b : bool) (k : Z) := if b then k else 0%Z in
  Z.max 0 (Z.min 100
    (50 + adj (flt_gt (revenue_growth data) lit_0_10) 20
        + adj (flt_lt (revenue_growth data) lit_0) (-20)
        + adj (flt_gt (net_margin data) lit_0_15) 15
        + adj (flt_gt (debt_to_equity data) lit_2_0) (-15)
        + adj (String.eqb (guidance data) "RAISED") 25
        + adj (String.eqb (guidance data) "LOWERED") (-30))%Z).

(** ** controller.py: the delivery queue *)

(** [{'symbol': ..., 'payload': ...}]: the payload tuple is kept as its
    rendered strings. *)
Record AlertItem := mkAlertItem {
  item_symbol : string;
  item_payload : list string
}.

Global Instance AlertItem_eq_dec : EqDecision AlertItem.
Proof.
  intros [s1 p1] [s2 p2].
  destruct (decide (s1 = s2)) as [->|Hs]; [|right; congruence].
  destruct (decide (p1 = p2)) as [->|Hp]; [left; reflexivity|right; congruence].
Defined.

Record Controller := mkController {
  alert_queue : list AlertItem;      (* deque, left end first *)
  mode : string;                     (* "AUTO" or "MANUAL" *)
  current_filter : string;
  timer_active : bool;               (* QTimer.isActive() *)
  news_aggregator : NewsAggregator
}.

(** [Controller.__init__]: threshold 1, empty queue, AUTO, filter "ALL",
    timer started. *)
Definition init_controller : Controller :=
  mkController [] "AUTO" "ALL" true (new_aggregator 1).

Definition set_queue (c : Controller) (q : list AlertItem) : Controller :=
  mkController q (mode c) (current_filter c) (timer_active c) (news_aggregator c).

Definition set_timer (c : Controller) (b : bool) : Controller :=
  mkController (alert_queue c) (mode c) (current_filter c) b (news_aggregator c).

Definition set_agg (c : Controller) (agg : NewsAggregator) : Controller :=
  mkController (alert_queue c) (mode c) (current_filter c) (timer_active c) agg.

(** [Controller._matches_filter] *)
Definition _matches_filter (c : Controller) (symbol : string) : bool :=
  if String.eqb (current_filter c) "" || String.eqb (current_filter c) "ALL"
  then true
  else String.eqb symbol (current_filter c).

(** [deque.remove(x)]: removes the first element equal to [x]. *)
Fixpoint deque_remove (x : AlertItem) (q : list AlertItem) : list AlertItem :=
  match q with
  | [] => []
  | y :: q' => if decide (y = x) then q' else y :: deque_remove x q'
  end.

(** [Controller._try_show_next]: the new controller and the item emitted
    through [show_alert], if any. *)
Definition _try_show_next (c : Controller) : Controller * option AlertItem :=
  match alert_queue c with
  | [] => (c, None)
  | _ =>
      match List.find (fun item => _matches_filter c (item_symbol item)) (alert_queue c) with
      | None => (c, None)
      | Some matched_item =>
          let c1 := set_queue c (deque_remove matched_item (alert_queue c)) in
          let c2 := if String.eqb (mode c) "AUTO" then set_timer c1 true else c1 in
          (c2, Some matched_item)
      end
  end.

(** [Controller._analyze_and_queue]: [payload] is the tuple built from the
    narrative agent's analysis of the story (an external collaborator). *)
Definition _analyze_and_queue (c : Controller) (verified_news : VerifiedNews)
    (payload : list string) : Controller :=
  let c1 := set_queue c (app (alert_queue c) [mkAlertItem (vn_symbol verified_news) payload]) in
  if (length (alert_queue c1) =? 1)%nat && String.eqb (mode c1) "AUTO"
     && negb (timer_active c1)
  then set_timer (fst (_try_show_next c1)) true
  else c1.

(** The events delivered by [MarketStream._emit]. *)
Inductive MarketEvent :=
  | RawNews (symbol : string) (source : option string) (headline : string)
      (sentiment : option string) (summary : option string) (url : option string)
  | Fundamentals (symbol : string) (data : FundamentalData)
  | UniverseUpdate (tickers : list string).

Definition get_or (o : option string) (d : string) : string :=
  match o with Some s => s | None => d end.

(** [Controller.process_market_event] at instant [now].  [enrich] is the
    enrichment by the narrative agent and technical analyst, and [verdict]
    the technical verdict of a fundamentals alert. *)
Definition process_market_event (enrich : VerifiedNews -> list string)
    (verdict : string) (now : Q) (c : Controller) (event : MarketEvent)
    : Controller :=
  if (5 <=? length (alert_queue c))%nat then c
  else
    match event with
    | UniverseUpdate _ => c
    | RawNews symbol source headline sentiment summary _ =>
        let '(verified_news, agg) :=
          process (news_aggregator c) now (get_or source "Unknown") symbol
            headline (get_or sentiment "NEUTRAL") summary in
        let c1 := set_agg c agg in
        match verified_news with
        | Some vn => _analyze_and_queue c1 vn (enrich vn)
        | None => c1
        end
    | Fundamentals symbol data =>
        let analysis := analyze data in
        let payload := [symbol ++ " EARNINGS"; "Earnings PDF Parsed. Key Metrics below.";
                        verdict; "SEC Filings"; String.concat ", " (snd analysis);
                        "NORMAL"] in
        set_queue c (app (alert_queue c) [mkAlertItem symbol payload])
    end.

(** [Controller._on_timer_tick]: an exception escapes the slot. *)
Definition _on_timer_tick (enrich : VerifiedNews -> list string) (c : Controller)
    : PyExc + Controller :=
  match call_flush (news_aggregator c) 10 with
  | inl e => inl e
  | inr (flushed_news, agg) =>
      let c1 := fold_left (fun c vn => _analyze_and_queue c vn (enrich vn))
                  flushed_news (set_agg c agg) in
      inr (if String.eqb (mode c1) "AUTO" then fst (_try_show_next c1) else c1)
  end.

(** [Controller.force_next_alert] *)
Definition force_next_alert (c : Controller) : Controller := fst (_try_show_next c).

(** [Controller.set_mode] *)
Definition set_mode (c : Controller) (m : string) : Controller :=
  let c1 := mkController (alert_queue c) m (current_filter c) (timer_active c)
              (news_aggregator c) in
  if String.eqb m "AUTO" then fst (_try_show_next (set_timer c1 true))
  else set_timer c1 false.

(** [Controller.update_filter]; the [track_symbol] task it schedules acts
    on the MarketStream, not on the controller. *)
Definition update_filter (c : Controller) (filter_text : string) : Controller :=
  let c1 := mkController (alert_queue c) (mode c) (str_upper filter_text)
              (timer_active c) (news_aggregator c) in
  if String.eqb (mode c1) "AUTO" then fst (_try_show_next c1) else c1.

(** The controller's transitions: market events, timer ticks (a tick whose
    slot raises leaves the state as it was), and the user's commands. *)
Inductive ctrl_step (enrich : VerifiedNews -> list string) : Controller -> Controller -> Prop :=
  | cs_event verdict now c ev :
      ctrl_step enrich c (process_market_event enrich verdict now c ev)
  | cs_tick c c' : _on_timer_tick enrich c = inr c' -> ctrl_step enrich c c'
  | cs_tick_raise c e : _on_timer_tick enrich c = inl e -> ctrl_step enrich c c
  | cs_next c : ctrl_step enrich c (force_next_alert c)
  | cs_mode c m : ctrl_step enrich c (set_mode c m)
  | cs_filter c f : ctrl_step enrich c (update_filter c f).

Inductive ctrl_reachable (enrich : VerifiedNews -> list string) : Controller -> Prop :=
  | cr_init : ctrl_reachable enrich init_controller
  | cr_step c c' : ctrl_reachable enrich c -> ctrl_step enrich c c' ->
      ctrl_reachable enrich c'.

(** ** backend.py: MarketStream and its LocalBrain store *)

Record MarketStream := mkMarketStream {
  running : bool;
  monitoring_universe : list string;
  priority_universe : list string;
  full_universe : list string;
  _news_dedup : gset string;              (* in-memory dedup set *)
  db_settings : gmap string (list string); (* settings table, JSON lists *)
  db_tickers : list string;               (* tickers table *)
  db_seen_news : gmap string Q             (* seen_news table: id -> timestamp *)
}.

(** [MarketStream(db)] against a store with the given tables. *)
Definition new_market_stream (settings : gmap string (list string))
    (tickers : list string) (seen : gmap string Q) : MarketStream :=
  mkMarketStream false ["NVDA"; "TSLA"; "AAPL"; "BTC-USD"; "ETH-USD"] [] [] ∅
    settings tickers seen.

(** Re-instantiating [MarketStream] against the same [LocalBrain]. *)
Definition restart (ms : MarketStream) : MarketStream :=
  new_market_stream (db_settings ms) (db_tickers ms) (db_seen_news ms).

Definition with_monitoring (ms : MarketStream) (l : list string) : MarketStream :=
  mkMarketStream (running ms) l (priority_universe ms) (full_universe ms)
    (_news_dedup ms) (db_settings ms) (db_tickers ms) (db_seen_news ms).

Definition with_priority (ms : MarketStream) (l : list string) : MarketStream :=
  mkMarketStream (running ms) (monitoring_universe ms) l (full_universe ms)
    (_news_dedup ms) (db_settings ms) (db_tickers ms) (db_seen_news ms).

Definition with_full (ms : MarketStream) (l : list string) : MarketStream :=
  mkMarketStream (running ms) (monitoring_universe ms) (priority_universe ms) l
    (_news_dedup ms) (db_settings ms) (db_tickers ms) (db_seen_news ms).

Definition with_dedup (ms : MarketStream) (s : gset string) : MarketStream :=
  mkMarketStream (running ms) (monitoring_universe ms) (priority_universe ms)
    (full_universe ms) s (db_settings ms) (db_tickers ms) (db_seen_news ms).

(** [LocalBrain.set_setting] *)
Definition set_setting (ms : MarketStream) (key : string) (v : list string)
    : MarketStream :=
  mkMarketStream (running ms) (monitoring_universe ms) (priority_universe ms)
    (full_universe ms) (_news_dedup ms) (<[key := v]> (db_settings ms))
    (db_tickers ms) (db_seen_news ms).

(** [LocalBrain.add_tickers] ([INSERT OR IGNORE]) *)
Definition add_tickers (ms : MarketStream) (ts : list string) : MarketStream :=
  mkMarketStream (running ms) (monitoring_universe ms) (priority_universe ms)
    (full_universe ms) (_news_dedup ms) (db_settings ms)
    (fold_left (fun acc t => if str_in t acc then acc else app acc [t]) ts (db_tickers ms))
    (db_seen_news ms).

(** [LocalBrain.is_news_seen] *)
Definition is_news_seen (ms : MarketStream) (news_id : string) : bool :=
  match db_seen_news ms !! news_id with Some _ => true | None => false end.

(** [LocalBrain.mark_news_seen] at instant [now]: [INSERT OR IGNORE], then,
    when the random draw [cleanup] exceeds 0.9, the deletion of every row
    with [timestamp < now - 86400]. *)
Definition mark_news_seen (ms : MarketStream) (news_id : string) (now : Q)
    (cleanup : bool) : MarketStream :=
  let seen1 := if is_news_seen ms news_id then db_seen_news ms
               else <[news_id := now]> (db_seen_news ms) in
  let seen2 := if cleanup
               then filter (fun kv => Qle_bool (now - 86400) kv.2 = true) seen1
               else seen1 in
  mkMarketStream (running ms) (monitoring_universe ms) (priority_universe ms)
    (full_universe ms) (_news_dedup ms) (db_settings ms) (db_tickers ms) seen2.

(** The outcome of the yfinance probes of [validate_ticker]: [Some b] is
    "returned a frame, non-empty iff [b]", [None] is "raised". *)
Record Probe := mkProbe {
  download_nonempty : option bool;   (* yf.download(symbol, ...) *)
  history_nonempty : option bool     (* yf.Ticker(symbol).history(...) *)
}.

(** [MarketStream.validate_ticker] *)
Definition validate_ticker (ms : MarketStream) (symbol : string) (pr : Probe) : bool :=
  match download_nonempty pr with
  | None => false
  | Some true => true
  | Some false =>
      match history_nonempty pr with
      | None => false
      | Some true => true
      | Some false => str_in symbol (full_universe ms)
      end
  end.

(** [symbol.upper().strip()] *)
Definition normalize (symbol : string) : string := str_strip (str_upper symbol).

(** [MarketStream.track_symbol]: the result, the new state, and the symbol
    of the immediate poll task it creates, if any. *)
Definition track_symbol (ms : MarketStream) (symbol : string) (pr : Probe)
    : bool * MarketStream * option string :=
  let symbol := normalize symbol in
  if String.eqb symbol "" then (false, ms, None)
  else
    let is_known := str_in symbol (full_universe ms) in
    let r :=
      if is_known then Some ms
      else if negb (validate_ticker ms symbol pr) then None
      else Some (add_tickers (with_full ms (app (full_universe ms) [symbol])) [symbol]) in
    match r with
    | None => (false, ms, None)
    | Some ms1 =>
        if negb (str_in symbol (monitoring_universe ms1)) then
          let ms2 := with_monitoring ms1 (app (monitoring_universe ms1) [symbol]) in
          let ms3 := set_setting ms2 "monitoring_universe" (monitoring_universe ms2) in
          (true, ms3, if running ms3 then Some symbol else None)
        else (true, ms1, None)
    end.

(** [MarketStream.mark_priority] *)
Definition mark_priority (ms : MarketStream) (symbol : string) : bool * MarketStream :=
  let symbol := normalize symbol in
  if negb (str_in symbol (monitoring_universe ms)) then (false, ms)
  else if str_in symbol (priority_universe ms) then (true, ms)
  else if (5 <=? length (priority_universe ms))%nat then (false, ms)
  else
    let ms1 := with_priority ms (app (priority_universe ms) [symbol]) in
    (true, set_setting ms1 "priority_universe" (priority_universe ms1)).

(** [list.remove(x)] when [x] is in the list. *)
Fixpoint list_remove (x : string) (l : list string) : list string :=
  match l with
  | [] => []
  | y :: l' => if String.eqb y x then l' else y :: list_remove x l'
  end.

(** [MarketStream.unmark_priority] *)
Definition unmark_priority (ms : MarketStream) (symbol : string) : MarketStream :=
  let symbol := normalize symbol in
  if str_in symbol (priority_universe ms) then
    let ms1 := with_priority ms (list_remove symbol (priority_universe ms)) in
    set_setting ms1 "priority_universe" (priority_universe ms1)
  else ms.

(** [MarketStream.remove_symbol] *)
Definition remove_symbol (ms : MarketStream) (symbol : string) : MarketStream :=
  let symbol := normalize symbol in
  if str_in symbol (monitoring_universe ms) then
    let ms1 := with_monitoring ms (list_remove symbol (monitoring_universe ms)) in
    set_setting ms1 "monitoring_universe" (monitoring_universe ms1)
  else ms.

(** The set-up part of [MarketStream.start]: [_sync_universe] (whose remote
    listing, when fetched, is [listing]), then the reload of the persisted
    monitoring and priority lists. *)
Definition start (ms : MarketStream) (listing : option (list string)) : MarketStream :=
  let ms0 := mkMarketStream true (monitoring_universe ms) (priority_universe ms)
               (full_universe ms) (_news_dedup ms) (db_settings ms) (db_tickers ms)
               (db_seen_news ms) in
  let ms1 := match db_tickers ms0 with [] => ms0 | ts => with_full ms0 ts end in
  let ms2 := match listing with
             | Some ((_ :: _) as l) => let m := add_tickers ms1 l in with_full m (db_tickers m)
             | _ => ms1
             end in
  let ms3 := match db_settings ms2 !! "monitoring_universe" with
             | Some l => with_monitoring ms2 l | None => ms2 end in
  match db_settings ms3 !! "priority_universe" with
  | Some l => with_priority ms3 l | None => ms3
  end.

(** The deduplication step of [MarketStream._poll_symbol] for one Yahoo news
    item with the given URL (the dedup key): [true] when the item is admitted
    and an event emitted. *)
Definition yahoo_dedup (ms : MarketStream) (headline url : string) (now : Q)
    (cleanup : bool) : bool * MarketStream :=
  if String.eqb headline "No Headline" || String.eqb url "" then (false, ms)
  else
    let dedup_key := url in
    if bool_decide (dedup_key ∈ _news_dedup ms) then (false, ms)
    else if is_news_seen ms dedup_key then (false, ms)
    else
      let ms1 := with_dedup ms ({[dedup_key]} ∪ _news_dedup ms) in
      (true, mark_news_seen ms1 dedup_key now cleanup).

(** [set.pop()]: removes one element of the set. *)
Definition set_pop (s : gset string) : gset string :=
  match elements s with
  | [] => s
  | x :: _ => s ∖ {[x]}
  end.

(** The deduplication step of [MarketStream._poll_alpha_vantage] for one
    feed item: [true] when the item is admitted. *)
Definition av_dedup (ms : MarketStream) (headline url source : string) (now : Q)
    (cleanup : bool) : bool * MarketStream :=
  let dedup_key := if String.eqb url "" then headline ++ "|" ++ source else url in
  if bool_decide (dedup_key ∈ _news_dedup ms) then (false, ms)
  else if is_news_seen ms dedup_key then
    (false, with_dedup ms ({[dedup_key]} ∪ _news_dedup ms))
  else
    let ms1 := with_dedup ms ({[dedup_key]} ∪ _news_dedup ms) in
    let ms2 := mark_news_seen ms1 dedup_key now cleanup in
    if (2000 <? size (_news_dedup ms2))%nat
    then (true, with_dedup ms2 (set_pop (_news_dedup ms2)))
    else (true, ms2).

(** The MarketStream's operations: the Universe Manager's methods, the
    set-up of [start], a restart against the same store, and the dedup steps
    of the two pollers for one news item at instant [now], with the random
    draw of [mark_news_seen]. *)
Inductive MsAction :=
  | ActTrack (sym : string) (pr : Probe)
  | ActMark (sym : string)
  | ActUnmark (sym : string)
  | ActRemove (sym : string)
  | ActStart (listing : option (list string))
  | ActRestart
  | ActYahoo (headline url : string) (now : Q) (cleanup : bool)
  | ActAv (headline url source : string) (now : Q) (cleanup : bool).

Definition run_action (ms : MarketStream) (a : MsAction) : MarketStream :=
  match a with
  | ActTrack sym pr => snd (fst (track_symbol ms sym pr))
  | ActMark sym => snd (mark_priority ms sym)
  | ActUnmark sym => unmark_priority ms sym
  | ActRemove sym => remove_symbol ms sym
  | ActStart listing => start ms listing
  | ActRestart => restart ms
  | ActYahoo h u now cl => snd (yahoo_dedup ms h u now cl)
  | ActAv h u src now cl => snd (av_dedup ms h u src now cl)
  end.



Inductive ms_reachable : MarketStream -> Prop :=
  | mr_init : ms_reachable (new_market_stream ∅ [] ∅)
  | mr_step ms a : ms_reachable ms -> ms_reachable (run_action ms a).

(** Aggregators reachable from [NewsAggregator(t)] through [process]. *)
Inductive agg_reachable : NewsAggregator -> Prop :=
  | ar_init t : agg_reachable (new_aggregator t)
  | ar_process agg now src sym h s sum :
      agg_reachable agg -> agg_reachable (snd (process agg now src sym h s sum)).


(** ** controller.py: the ticker manager helpers *)

(** The [counts] dict that [Controller._refresh_ui_watchlist] passes to the
    ticker manager: the number of queued items per symbol. *)
Definition _refresh_ui_watchlist_counts (q : list AlertItem) : gmap string nat :=
  fold_left (fun counts item =>
      <[item_symbol item := default 0%nat (counts !! item_symbol item) + 1]> counts)
    q ∅.

(** [list(dict.fromkeys(xs))]: the first occurrence of each key, in order. *)
Definition dict_fromkeys (xs : list string) : list string :=
  fold_left (fun acc k => if str_in k acc then acc else app acc [k]) xs [].

(** The cleaning step of [Controller._process_tickers_async]:
    [list(dict.fromkeys([t.upper().strip() for t in tickers if t.strip()]))]. *)
Definition clean_tickers (tickers : list string) : list string :=
  dict_fromkeys (map (fun t => str_strip (str_upper t))
                   (List.filter (fun t => negb (String.eqb (str_strip t) "")) tickers)).

(** ** agent.py: the simulated analysis of TraderAgent *)





(** ** backend.py: the polling loops *)

(** The symbols that one cycle of [_run_yahoo_loop] polls; [_run_priority_loop]
    polls [priority_universe]. *)
Definition standard_list (ms : MarketStream) : list string :=
  List.filter (fun s => negb (str_in s (priority_universe ms))) (monitoring_universe ms).

(** A Yahoo news entry as [_poll_symbol] reads it; [None] is a missing key. *)
Record YahooFields := mkYahooFields {
  yf_title : option string;
  yf_headline : option string;
  yf_publisher : option string;
  yf_canonical_url : option (option string);
    (* 'canonicalUrl' when it is a dict, with its 'url' key *)
  yf_link : option string;
  yf_summary : option string
}.

Record YahooItem := mkYahooItem {
  yi_fields : YahooFields;            (* the keys of the entry *)
  yi_content : option YahooFields     (* its 'content' dict, if any *)
}.

(** [content.get('title') or content.get('headline', 'No Headline')] *)
Definition yahoo_headline (content : YahooFields) : string :=
  match yf_title content with
  | Some t => if String.eqb t "" then get_or (yf_headline content) "No Headline" else t
  | None => get_or (yf_headline content) "No Headline"
  end.

(** The [url] of the entry: the 'url' of a 'canonicalUrl' dict, else 'link'. *)
Definition yahoo_url (content : YahooFields) : string :=
  match yf_canonical_url content with
  | Some u => get_or u ""
  | None => get_or (yf_link content) ""
  end.

(** [latest.get('summary', '')], else the 'summary' of the 'content' dict. *)
Definition yahoo_summary (latest : YahooItem) : string :=
  let s := get_or (yf_summary (yi_fields latest)) "" in
  if String.eqb s "" then
    match yi_content latest with Some c => get_or (yf_summary c) "" | None => s end
  else s.

(** One entry of the news loop of [_poll_symbol], processed at instant [now]
    with the random draw [cleanup] of [mark_news_seen]. *)
Definition yahoo_item_step (symbol : string) (st : list MarketEvent * MarketStream)
    (x : YahooItem * (Q * bool)) : list MarketEvent * MarketStream :=
  let '(evs, ms) := st in
  let '(latest, (now, cleanup)) := x in
  let content := match yi_content latest with Some c => c | None => yi_fields latest end in
  let headline := yahoo_headline content in
  let url := yahoo_url content in
  let '(admitted, ms1) := yahoo_dedup ms headline url now cleanup in
  if admitted then
    (app evs [RawNews symbol (Some (get_or (yf_publisher content) "Unknown" ++ " (via Yahoo)"))
                headline (Some "NEUTRAL") (Some (yahoo_summary latest)) (Some url)], ms1)
  else (evs, ms1).

(** The news and fundamentals part of [MarketStream._poll_symbol]: the
    events emitted and the new state.  [news_list] is [ticker.news] with the
    instant and random draw of each entry; [fundamentals] is the simulated
    report, present when [random.random() > 0.95]. *)
Definition _poll_symbol (ms : MarketStream) (symbol : string) (is_priority : bool)
    (news_list : list (YahooItem * (Q * bool))) (fundamentals : option FundamentalData)
    : list MarketEvent * MarketStream :=
  let limit := if is_priority then 5%nat else 2%nat in
  let '(evs, ms1) := fold_left (yahoo_item_step symbol) (firstn limit news_list) ([], ms) in
  (app evs (match fundamentals with Some d => [Fundamentals symbol d] | None => [] end), ms1).

(** An entry of 'ticker_sentiment' in an Alpha Vantage feed item. *)
Record AvTickerSentiment := mkAvTickerSentiment {
  ts_ticker : option string;     (* 'ticker' *)
  ts_label : option string       (* 'ticker_sentiment_label' *)
}.

(** An Alpha Vantage feed item; [None] is a missing key, and a missing
    'ticker_sentiment' is the empty list. *)
Record AvItem := mkAvItem {
  av_title : option string;
  av_summary : option string;
  av_url : option string;
  av_source : option string;
  av_ticker_sentiment : list AvTickerSentiment
}.

Definition is_alpha_char (c : Ascii.ascii) : bool :=
  let n := Ascii.nat_of_ascii c in
  ((65 <=? n)%nat && (n <=? 90)%nat) || ((97 <=? n)%nat && (n <=? 122)%nat).

(** [s.isalpha()] on ASCII text. *)
Definition str_isalpha (s : string) : bool :=
  negb (String.eqb s "") && forallb is_alpha_char (String.list_ascii_of_string s).

(** The validity check of [_poll_alpha_vantage] for the ticker [av_symbol]. *)
Definition av_symbol_valid (ms : MarketStream) (av_symbol : string) : bool :=
  match full_universe ms with
  | _ :: _ => str_in av_symbol (full_universe ms)
  | [] => negb (String.eqb av_symbol "") && str_isalpha av_symbol
  end.

(** One item of the feed loop of [_poll_alpha_vantage]. *)
Definition av_item_step (st : list MarketEvent * MarketStream) (x : AvItem * (Q * bool))
    : list MarketEvent * MarketStream :=
  let '(evs, ms) := st in
  let '(item, (now, cleanup)) := x in
  let headline := get_or (av_title item) "No Headline" in
  let summary := get_or (av_summary item) "" in
  let url := get_or (av_url item) "" in
  let source := get_or (av_source item) "Alpha Vantage" in
  let '(admitted, ms1) := av_dedup ms headline url source now cleanup in
  if admitted then
    (app evs (flat_map (fun ts =>
        match ts_ticker ts with
        | Some av_symbol =>
            if av_symbol_valid ms1 av_symbol then
              [RawNews av_symbol (Some (source ++ " (via AlphaVantage)")) headline
                 (Some (str_upper (get_or (ts_label ts) "Neutral"))) (Some summary) (Some url)]
            else []
        | None => []          (* a missing ticker is never valid *)
        end) (av_ticker_sentiment item)), ms1)
  else (evs, ms1).

(** [MarketStream._poll_alpha_vantage] with a configured client: [news_feed]
    is the fetched feed (empty when the fetch fails), with the instant and
    random draw of each item. *)
Definition _poll_alpha_vantage (ms : MarketStream) (news_feed : list (AvItem * (Q * bool)))
    : list MarketEvent * MarketStream :=
  fold_left av_item_step news_feed ([], ms).

(** [t.split("-")[0]] *)
Fixpoint split_dash_head (t : string) : string :=
  match t with
  | EmptyString => EmptyString
  | String c rest => if Ascii.eqb c (Ascii.ascii_of_nat 45) (* - *) then EmptyString else String c (split_dash_head rest)
  end.

(** The symbol mapping of [AlphaVantageClient.fetch_news] for one ticker:
    [None] when the ticker is skipped. *)
Definition av_ticker_of (t : string) : option string :=
  if str_contains "-" t && negb (String.prefix "^" t) then Some (split_dash_head t)
  else if String.eqb t "EURUSD=X" then Some "EURUSD"
  else if String.prefix "^" t then
    if String.eqb t "^GSPC" then Some "SPY"
    else if String.eqb t "^IXIC" then Some "QQQ"
    else None
  else Some t.

(** The [av_tickers] list of [fetch_news], joined with "," into the
    'tickers' parameter. *)
Definition av_tickers (tickers : list string) : list string :=
  flat_map (fun t => match av_ticker_of t with Some x => [x] | None => [] end) tickers.

(** The URLs carried by the news events of a list of events. *)
Definition event_urls (evs : list MarketEvent) : list string :=
  flat_map (fun e => match e with
                     | RawNews _ _ _ _ _ (Some u) => [u]
                     | _ => []
                     end) evs.

(** The symbols of the news events of a list of events. *)
Definition event_symbols (evs : list MarketEvent) : list string :=
  flat_map (fun e => match e with
                     | RawNews s _ _ _ _ _ => [s]
                     | _ => []
                     end) evs.

(** The adjustment of the fundamentals score that [FundamentalAnalyst.analyze]
    applies together with each reason of its summary. *)
Definition reason_weight (r : string) : Z :=
  if String.eqb r "High Growth" then 20
  else if String.eqb r "Revenue Shrinking" then -20
  else if String.eqb r "High Margins" then 15
  else if String.eqb r "High Debt" then -15
  else if String.eqb r "Guidance Raised" then 25
  else if String.eqb r "Guidance Lowered !!" then -30
  else 0.

(** ** Properties *)

(** *** The consensus aggregator *)

Lemma process_buffer_cases agg now src sym h s sum :
  let b1 := List.filter (not_expired (ttl agg) now)
              (match buffer agg !! sym with Some l => l | None => [] end) in
  let agg' := snd (process agg now src sym h s sum) in
  threshold agg' = threshold agg /\ ttl agg' = ttl agg /\
  (forall k, k <> sym -> buffer agg' !! k = buffer agg !! k) /\
  (buffer agg' !! sym = Some b1 \/
   buffer agg' !! sym = Some (app b1 [mkEntry src h s sum now]) \/
   buffer agg' !! sym = Some []).
Proof.
  cbn zeta. unfold process.
  destruct (existsb _ _); [|destruct (_ <=? _)%Z]; cbn;
    (split; [reflexivity|split; [reflexivity|split]]);
    try (intros k Hk; rewrite lookup_insert_ne; congruence);
    rewrite lookup_insert_eq; auto.
Qed.

Lemma not_expired_true (ttl now : Q) n : (now - e_time n < ttl)%Q -> not_expired ttl now n = true.
Proof. intros H. unfold not_expired. destruct (Qlt_le_dec _ _); [reflexivity|lra]. Qed.

Lemma not_expired_false (ttl now : Q) n : (ttl <= now - e_time n)%Q -> not_expired ttl now n = false.
Proof. intros H. unfold not_expired. destruct (Qlt_le_dec _ _); [lra|reflexivity]. Qed.

Lemma process_empty_buffer agg now src sym h s sum :
  (buffer agg !! sym = None \/ buffer agg !! sym = Some []) ->
  (2 <= threshold agg)%Z ->
  process agg now src sym h s sum =
    (None, set_buffer agg (<[sym := [mkEntry src h s sum now]]> (buffer agg))).
Proof.
  intros Hb Ht. unfold process.
  destruct Hb as [-> | ->]; cbn;
    (replace (threshold agg <=? Z.of_nat 1)%Z with false
       by (symmetry; apply Z.leb_gt; lia); reflexivity).
Qed.

Lemma process_second_source agg now src sym h s sum e :
  buffer agg !! sym = Some [e] -> threshold agg = 2%Z ->
  e_source e <> src -> (now - e_time e < ttl agg)%Q ->
  fst (process agg now src sym h s sum) <> None /\
  (forall v, fst (process agg now src sym h s sum) = Some v ->
     vn_sources v = [e_source e; src] /\ vn_symbol v = sym) /\
  buffer (snd (process agg now src sym h s sum)) !! sym = Some [].
Proof.
  intros Hb Ht Hsrc Hw. unfold process. rewrite Hb. cbn [List.filter].
  rewrite not_expired_true by exact Hw. cbn [existsb].
  replace (String.eqb (e_source e) src) with false
    by (symmetry; apply String.eqb_neq; exact Hsrc).
  rewrite Ht. cbn. split; [discriminate|]. split.
  - intros v Hv. injection Hv as <-. cbn. auto.
  - apply lookup_insert_eq.
Qed.

(** C2. Within the TTL window a second report from a source already in a
    symbol's pending buffer returns [None] and adds no entry (the buffer
    only loses its expired entries); with threshold 2, a report from [A]
    then one from [B] within the TTL yield exactly one [VerifiedNews]
    carrying both sources, and a third report from [A] right after does not
    trigger a second consensus. *)
Theorem process_same_source_no_double_count :
  (forall agg now src sym h s sum n,
     In n (match buffer agg !! sym with Some l => l | None => [] end) ->
     e_source n = src -> (now - e_time n < ttl agg)%Q ->
     process agg now src sym h s sum =
       (None, set_buffer agg (<[sym := List.filter (not_expired (ttl agg) now)
                 (match buffer agg !! sym with Some l => l | None => [] end)]>
                 (buffer agg)))) /\
  (forall agg sym a b t1 t2 t3 h1 h2 h3 s1 s2 s3 m1 m2 m3,
     threshold agg = 2%Z ->
     (buffer agg !! sym = None \/ buffer agg !! sym = Some []) ->
     a <> b -> (t2 - t1 < ttl agg)%Q ->
     let p1 := process agg t1 a sym h1 s1 m1 in
     let p2 := process (snd p1) t2 b sym h2 s2 m2 in
     let p3 := process (snd p2) t3 a sym h3 s3 m3 in
     fst p1 = None /\
     (exists v, fst p2 = Some v /\ vn_sources v = [a; b] /\ vn_symbol v = sym) /\
     fst p3 = None).
Proof.
  split.
  - intros agg now src sym h s sum n Hin Hsrc Hfresh. unfold process.
    replace (existsb _ _) with true; [reflexivity|].
    symmetry. apply existsb_exists. exists n. split.
    + apply filter_In. split; [exact Hin|]. by apply not_expired_true.
    + apply String.eqb_eq. exact Hsrc.
  - intros agg sym a b t1 t2 t3 h1 h2 h3 s1 s2 s3 m1 m2 m3 Ht Hb Hab Hw.
    cbn zeta.
    assert (E1 := process_empty_buffer agg t1 a sym h1 s1 m1 Hb ltac:(lia)).
    rewrite E1. cbn [fst snd]. split; [reflexivity|].
    destruct (process_second_source
                (set_buffer agg (<[sym:=[mkEntry a h1 s1 m1 t1]]> (buffer agg)))
                t2 b sym h2 s2 m2 (mkEntry a h1 s1 m1 t1))
      as (Hsome & Hsrcs & Hbuf2); cbn; try rewrite lookup_insert_eq; auto.
    destruct (process _ t2 b sym h2 s2 m2) as [r2 a2] eqn:E2. cbn in *.
    split.
    + destruct r2 as [v|]; [|congruence]. exists v. split; [reflexivity|].
      apply Hsrcs. reflexivity.
    + rewrite process_empty_buffer; [reflexivity|auto|].
      pose proof (process_buffer_cases
        (set_buffer agg (<[sym:=[mkEntry a h1 s1 m1 t1]]> (buffer agg)))
        t2 b sym h2 s2 m2) as (Hth & _). rewrite E2 in Hth. cbn in Hth. lia.
Qed.

Lemma NoDup_map_source_filter f (l : list Entry) :
  NoDup (map e_source l) -> NoDup (map e_source (List.filter f l)).
Proof.
  induction l as [|a l IH]; cbn; [auto|].
  intros Hnd. apply NoDup_cons in Hnd as [Hnin Hnd].
  destruct (f a); cbn; [|auto].
  constructor; [|auto].
  intros Hin. apply Hnin. apply list_elem_of_In in Hin. apply list_elem_of_In.
  apply in_map_iff in Hin as (x & Hx & Hxin). apply filter_In in Hxin as [Hxin _].
  apply in_map_iff. eauto.
Qed.

Lemma process_sources_nodup agg now src sym h s sum :
  (forall k l, buffer agg !! k = Some l -> NoDup (map e_source l)) ->
  forall k l, buffer (snd (process agg now src sym h s sum)) !! k = Some l ->
  NoDup (map e_source l).
Proof.
  intros Hinv k l. unfold process.
  set (b0 := match buffer agg !! sym with Some l => l | None => [] end).
  assert (Hb0 : NoDup (map e_source b0)).
  { unfold b0. destruct (buffer agg !! sym) eqn:E; [eauto|constructor]. }
  pose proof (NoDup_map_source_filter (not_expired (ttl agg) now) b0 Hb0) as Hb1.
  destruct (existsb _ _) eqn:Eex; [|destruct (_ <=? _)%Z]; cbn;
    (destruct (decide (k = sym)) as [->|Hk];
     [rewrite lookup_insert_eq; intros [= <-]
     |rewrite lookup_insert_ne by congruence; apply Hinv]).
  - exact Hb1.
  - constructor.
  - rewrite map_app. apply NoDup_app. split; [exact Hb1|]. split; [|apply NoDup_singleton].
    intros x Hx Hx'. apply list_elem_of_singleton in Hx'. subst x. cbn in Hx.
    apply list_elem_of_In, in_map_iff in Hx as (n & Hn & Hnin).
    assert (existsb (fun n => String.eqb (e_source n) src)
              (List.filter (not_expired (ttl agg) now) b0) = true) as Hc.
    { apply existsb_exists. exists n. split; [exact Hnin|]. apply String.eqb_eq. exact Hn. }
    congruence.
Qed.

(** C7. [process] purges the entries older than the TTL from the symbol's
    buffer before inserting the new report; a report from [A] and one from
    [B] more than the TTL apart do not combine (with threshold 2 neither
    triggers consensus, and [B] is alone in the buffer); and every buffer of
    every reachable aggregator holds at most one entry per source. *)
Theorem process_ttl_purge :
  (forall agg now src sym h s sum,
     let b1 := List.filter (not_expired (ttl agg) now)
                 (match buffer agg !! sym with Some l => l | None => [] end) in
     let agg' := snd (process agg now src sym h s sum) in
     buffer agg' !! sym = Some b1 \/
     buffer agg' !! sym = Some (app b1 [mkEntry src h s sum now]) \/
     buffer agg' !! sym = Some []) /\
  (forall agg sym a b t1 t2 h1 h2 s1 s2 m1 m2,
     threshold agg = 2%Z ->
     (buffer agg !! sym = None \/ buffer agg !! sym = Some []) ->
     (ttl agg <= t2 - t1)%Q ->
     let p1 := process agg t1 a sym h1 s1 m1 in
     let p2 := process (snd p1) t2 b sym h2 s2 m2 in
     fst p1 = None /\ fst p2 = None /\
     buffer (snd p2) !! sym = Some [mkEntry b h2 s2 m2 t2]) /\
  (forall agg, agg_reachable agg ->
     forall sym l, buffer agg !! sym = Some l -> NoDup (map e_source l)).
Proof.
  split; [|split].
  - intros agg now src sym h s sum. cbn zeta.
    apply (process_buffer_cases agg now src sym h s sum).
  - intros agg sym a b t1 t2 h1 h2 s1 s2 m1 m2 Ht Hb Hw. cbn zeta.
    rewrite (process_empty_buffer agg) by (auto; lia). cbn [fst snd].
    unfold process. cbn [buffer set_buffer ttl threshold].
    rewrite lookup_insert_eq. cbn [List.filter].
    rewrite not_expired_false by (cbn; exact Hw). cbn.
    rewrite Ht. replace (2 <=? Z.of_nat 1)%Z with false by reflexivity. cbn.
    rewrite lookup_insert_eq. auto.
  - induction 1 as [t|agg now src sym h s sum _ IH].
    + intros sym l. cbn. rewrite lookup_empty. discriminate.
    + apply process_sources_nodup. exact IH.
Qed.

(** *** The fundamentals score *)

Lemma growth_branches_exclusive x :
  flt_gt x lit_0_10 = true -> flt_lt x lit_0 = false.
Proof.
  unfold flt_lt, lit_0_10, lit_0.
  destruct x as [q| | |]; cbn; try discriminate; [|reflexivity].
  destruct (Qlt_le_dec _ q); [|discriminate]. intros _.
  destruct (Qlt_le_dec q 0); [lra|reflexivity].
Qed.

Lemma guidance_branches_exclusive g :
  String.eqb g "RAISED" = true -> String.eqb g "LOWERED" = false.
Proof. intros H. apply String.eqb_eq in H. subst g. reflexivity. Qed.

(** C10. For every [FundamentalData], the score returned by
    [FundamentalAnalyst.analyze] lies in [0, 100] and equals the clamp to
    [0, 100] of 50 plus the applicable adjustments, each rule counted
    independently. *)
Theorem analyze_score_clamped (d : FundamentalData) :
  (0 <= fst (analyze d) <= 100)%Z /\ fst (analyze d) = spec_score d.
Proof.
  pose proof (growth_branches_exclusive (revenue_growth d)) as X1.
  pose proof (guidance_branches_exclusive (guidance d)) as X2.
  unfold analyze, spec_score. revert X1 X2.
  destruct (flt_gt (revenue_growth d) lit_0_10), (flt_lt (revenue_growth d) lit_0),
    (flt_gt (net_margin d) lit_0_15), (flt_gt (debt_to_equity d) lit_2_0),
    (String.eqb (guidance d) "RAISED"), (String.eqb (guidance d) "LOWERED");
    intros X1 X2; cbn;
    try (specialize (X1 eq_refl); discriminate);
    try (specialize (X2 eq_refl); discriminate);
    split; (lia || reflexivity).
Qed.

(** *** Impact tiers *)

(** C8 (as amended). [_analyze_impact] upper-cases [headline + " " +
    (summary or "")] and classifies by substring search: CRITICAL when the
    text contains one of the seven critical terms, else HIGH when it
    contains one of the eight high terms, else NORMAL. *)
Theorem analyze_impact_tiers (headline : string) (summary : option string) :
  let text := str_upper (headline ++ " " ++ match summary with Some s => s | None => "" end) in
  let crit := ["BANKRUPTCY"; "HALT"; "ACQUISITION"; "MERGER"; "GUIDANCE LOWERED";
               "FDA APPROVAL"; "CRASH"] in
  let high := ["EARNINGS"; "REVENUE"; "GROWTH"; "SURGE"; "RECORD"; "BEATS"; "MISSES";
               "GUIDANCE"] in
  ((exists term, In term crit /\ str_contains term text = true) ->
     _analyze_impact headline summary = "CRITICAL") /\
  ((forall term, In term crit -> str_contains term text = false) ->
   (exists term, In term high /\ str_contains term text = true) ->
     _analyze_impact headline summary = "HIGH") /\
  ((forall term, In term crit -> str_contains term text = false) ->
   (forall term, In term high -> str_contains term text = false) ->
     _analyze_impact headline summary = "NORMAL").
Proof.
  cbn zeta. unfold _analyze_impact.
  set (text := str_upper _).
  assert (Hno : forall l, (forall term, In term l -> str_contains term text = false) ->
                existsb (fun term => str_contains term text) l = false).
  { intros l Hl. apply Bool.not_true_iff_false. intros Hex.
    apply existsb_exists in Hex as (t & Ht & Hc). rewrite Hl in Hc by exact Ht.
    discriminate. }
  split; [|split].
  - intros Hex. replace (existsb _ critical_terms) with true; [reflexivity|].
    symmetry. apply existsb_exists. exact Hex.
  - intros Hc Hh. rewrite (Hno critical_terms Hc).
    replace (existsb _ high_terms) with true; [reflexivity|].
    symmetry. apply existsb_exists. exact Hh.
  - intros Hc Hh. rewrite (Hno critical_terms Hc), (Hno high_terms Hh). reflexivity.
Qed.

(** C8, counterexample: a guidance cut is HIGH, a regulatory approval that
    is not an FDA approval is NORMAL, and "beat" (not "beats") is NORMAL. *)
Lemma analyze_impact_term_lists_cex :
  _analyze_impact "Acme guidance cut" None = "HIGH" /\
  _analyze_impact "Regulatory approval granted to Acme" None = "NORMAL" /\
  _analyze_impact "Acme beat estimates" None = "NORMAL".
Proof. split; [|split]; reflexivity. Qed.

(** *** Filtered delivery *)

Lemma find_first_match (f : AlertItem -> bool) pre x post :
  Forall (fun y => f y = false) pre -> f x = true ->
  List.find f (app pre (x :: post)) = Some x.
Proof.
  induction 1 as [|y pre Hy _ IH]; intros Hx; cbn.
  - rewrite Hx. reflexivity.
  - rewrite Hy. apply IH. exact Hx.
Qed.

Lemma find_no_match (f : AlertItem -> bool) l :
  Forall (fun y => f y = false) l -> List.find f l = None.
Proof. induction 1 as [|y l Hy _ IH]; cbn; [reflexivity|]. rewrite Hy. exact IH. Qed.

Lemma deque_remove_first pre x post :
  Forall (fun y => y <> x) pre -> deque_remove x (app pre (x :: post)) = app pre post.
Proof.
  induction 1 as [|y pre Hy _ IH]; cbn.
  - rewrite decide_True by reflexivity. reflexivity.
  - rewrite decide_False by exact Hy. rewrite IH. reflexivity.
Qed.

(** C5. [_try_show_next] with the active filter: when no queued item
    matches, nothing changes; otherwise the first matching item in arrival
    order is removed and delivered, and all other items, the earlier
    non-matching ones included, stay in their relative order. *)
Theorem try_show_next_first_match (c : Controller) :
  (Forall (fun it => _matches_filter c (item_symbol it) = false) (alert_queue c) ->
     _try_show_next c = (c, None)) /\
  (forall pre x post,
     alert_queue c = app pre (x :: post) ->
     Forall (fun it => _matches_filter c (item_symbol it) = false) pre ->
     _matches_filter c (item_symbol x) = true ->
     snd (_try_show_next c) = Some x /\
     alert_queue (fst (_try_show_next c)) = app pre post /\
     current_filter (fst (_try_show_next c)) = current_filter c /\
     mode (fst (_try_show_next c)) = mode c /\
     news_aggregator (fst (_try_show_next c)) = news_aggregator c).
Proof.
  split.
  - intros Hnone. unfold _try_show_next.
    destruct (alert_queue c) eqn:Eq; [reflexivity|].
    rewrite <- Eq, find_no_match by (rewrite Eq; exact Hnone). reflexivity.
  - intros pre x post Eq Hpre Hx. unfold _try_show_next.
    destruct (alert_queue c) as [|a l] eqn:Eq'; [destruct pre; discriminate|].
    rewrite Eq, find_first_match by assumption.
    rewrite deque_remove_first.
    + destruct (String.eqb (mode c) "AUTO"); cbn; auto.
    + eapply Forall_impl; [exact Hpre|]. intros y Hy ->. congruence.
Qed.

(** *** The bounded delivery queue *)

Lemma call_flush_raises agg timeout :
  call_flush agg timeout = inl (AttributeError "flush").
Proof. reflexivity. Qed.

Lemma deque_remove_length x q : (length (deque_remove x q) <= length q)%nat.
Proof.
  induction q as [|y q IH]; cbn; [lia|].
  destruct (decide (y = x)); cbn; lia.
Qed.

Lemma try_show_next_length c :
  (length (alert_queue (fst (_try_show_next c))) <= length (alert_queue c))%nat.
Proof.
  unfold _try_show_next.
  destruct (alert_queue c) eqn:Eq; [cbn [fst]; rewrite Eq; cbn; lia|].
  destruct (List.find _ _); [|cbn [fst]; rewrite Eq; lia].
  destruct (String.eqb (mode c) "AUTO"); cbn [fst alert_queue set_timer set_queue]; apply deque_remove_length.
Qed.

Lemma analyze_and_queue_length c vn p :
  (length (alert_queue (_analyze_and_queue c vn p)) <= S (length (alert_queue c)))%nat.
Proof.
  unfold _analyze_and_queue.
  destruct (_ && _ && _).
  - cbn [alert_queue set_timer].
    etransitivity; [apply try_show_next_length|]. cbn. rewrite length_app. cbn. lia.
  - cbn. rewrite length_app. cbn. lia.
Qed.

Lemma process_market_event_length enrich verdict now c ev :
  (length (alert_queue (process_market_event enrich verdict now c ev)) <=
     Nat.max (length (alert_queue c)) 5)%nat.
Proof.
  unfold process_market_event.
  destruct (5 <=? length (alert_queue c))%nat eqn:Hfull; [lia|].
  apply Nat.leb_gt in Hfull.
  destruct ev as [symbol source headline sentiment summary url|symbol data|tickers].
  - destruct (process _ _ _ _ _ _ _) as [[vn|] agg].
    + etransitivity; [apply analyze_and_queue_length|]. cbn. lia.
    + cbn. lia.
  - cbn. rewrite length_app. cbn. lia.
  - lia.
Qed.

(** C4. An event that arrives while the delivery queue holds 5 or more
    items is dropped and leaves the controller unchanged; in every
    reachable controller state the queue holds at most 5 items. *)
Theorem delivery_queue_bounded :
  (forall enrich verdict now c ev,
     (5 <= length (alert_queue c))%nat ->
     process_market_event enrich verdict now c ev = c) /\
  (forall enrich c, ctrl_reachable enrich c -> (length (alert_queue c) <= 5)%nat).
Proof.
  split.
  - intros enrich verdict now c ev Hfull. unfold process_market_event.
    replace (5 <=? length (alert_queue c))%nat with true; [reflexivity|].
    symmetry. apply Nat.leb_le. exact Hfull.
  - intros enrich c. induction 1 as [|c c' _ IH Hstep]; [cbn; lia|].
    destruct Hstep as [verdict now c ev|c c' Htick|c e _|c|c m|c f].
    + pose proof (process_market_event_length enrich verdict now c ev). lia.
    + unfold _on_timer_tick in Htick. rewrite call_flush_raises in Htick. discriminate.
    + exact IH.
    + unfold force_next_alert. pose proof (try_show_next_length c). lia.
    + unfold set_mode. destruct (String.eqb m "AUTO").
      * etransitivity; [apply try_show_next_length|]. cbn. exact IH.
      * cbn. exact IH.
    + unfold update_filter. cbn [mode].
      destruct (String.eqb (mode c) "AUTO").
      * etransitivity; [apply try_show_next_length|]. cbn. exact IH.
      * cbn. exact IH.
Qed.

(** *** The aggregator flush on the timer tick *)

(** C1. [_on_timer_tick] first calls [self.news_aggregator.flush(timeout=10)];
    [NewsAggregator] has no [flush] attribute, so every tick raises
    [AttributeError] before any pending story is promoted or delivered. *)
Theorem on_timer_tick_raises (enrich : VerifiedNews -> list string) (c : Controller) :
  _on_timer_tick enrich c = inl (AttributeError "flush").
Proof. unfold _on_timer_tick. rewrite call_flush_raises. reflexivity. Qed.

(** *** The Universe Manager *)

(** C9. When the normalised symbol is not in [full_universe] and the
    provider validation fails, [track_symbol] returns [False] and leaves the
    whole state (lists and store) unchanged, without creating a poll task. *)
Theorem track_symbol_invalid_no_mutation (ms : MarketStream) (sym : string) (pr : Probe) :
  str_in (normalize sym) (full_universe ms) = false ->
  validate_ticker ms (normalize sym) pr = false ->
  track_symbol ms sym pr = (false, ms, None).
Proof.
  intros Hunknown Hinvalid. unfold track_symbol.
  destruct (String.eqb (normalize sym) "") eqn:E; [reflexivity|].
  rewrite Hunknown, Hinvalid. reflexivity.
Qed.

(** The invariant of the priority list: the list and its persisted copy
    hold at most 5 symbols. *)
Definition prio_inv (ms : MarketStream) : Prop :=
  (length (priority_universe ms) <= 5)%nat /\
  forall l, db_settings ms !! "priority_universe" = Some l -> (length l <= 5)%nat.

(** The operations that leave the priority list and its persisted copy as
    they were. *)
Definition prio_frame (ms ms' : MarketStream) : Prop :=
  priority_universe ms' = priority_universe ms /\
  db_settings ms' !! "priority_universe" = db_settings ms !! "priority_universe".

Lemma prio_frame_inv ms ms' : prio_frame ms ms' -> prio_inv ms -> prio_inv ms'.
Proof. intros [Hp Hs] [H1 H2]. split; [rewrite Hp; exact H1|]. rewrite Hs. exact H2. Qed.

Lemma mark_news_seen_frame ms k now cl : prio_frame ms (mark_news_seen ms k now cl).
Proof. split; reflexivity. Qed.

Lemma prio_frame_refl ms : prio_frame ms ms.
Proof. split; reflexivity. Qed.

Lemma prio_frame_trans ms1 ms2 ms3 :
  prio_frame ms1 ms2 -> prio_frame ms2 ms3 -> prio_frame ms1 ms3.
Proof. intros [H1 H2] [H3 H4]. split; congruence. Qed.

Lemma set_setting_frame ms k v :
  k <> "priority_universe" -> prio_frame ms (set_setting ms k v).
Proof.
  intros Hk. split; [reflexivity|]. unfold set_setting. cbn [db_settings].
  apply lookup_insert_ne. congruence.
Qed.

Lemma with_monitoring_frame ms l : prio_frame ms (with_monitoring ms l).
Proof. split; reflexivity. Qed.

Lemma with_full_frame ms l : prio_frame ms (with_full ms l).
Proof. split; reflexivity. Qed.

Lemma add_tickers_frame ms l : prio_frame ms (add_tickers ms l).
Proof. split; reflexivity. Qed.

Lemma track_symbol_frame ms sym pr : prio_frame ms (snd (fst (track_symbol ms sym pr))).
Proof.
  unfold track_symbol.
  destruct (String.eqb (normalize sym) ""); [apply prio_frame_refl|].
  set (ms1 := add_tickers (with_full ms (app (full_universe ms) [normalize sym]))
                [normalize sym]).
  assert (H1 : prio_frame ms ms1).
  { eapply prio_frame_trans; [apply with_full_frame|apply add_tickers_frame]. }
  destruct (str_in (normalize sym) (full_universe ms));
    [|destruct (negb (validate_ticker ms (normalize sym) pr)); [apply prio_frame_refl|]];
    [set (m := ms); assert (Hm : prio_frame ms m) by apply prio_frame_refl
    |set (m := ms1); assert (Hm : prio_frame ms m) by exact H1];
    (destruct (negb (str_in _ (monitoring_universe m))); cbn [fst snd];
     [|exact Hm];
     eapply prio_frame_trans; [exact Hm|];
     eapply prio_frame_trans; [apply with_monitoring_frame|];
     apply set_setting_frame; discriminate).
Qed.

Lemma remove_symbol_frame ms sym : prio_frame ms (remove_symbol ms sym).
Proof.
  unfold remove_symbol. case_match; [|apply prio_frame_refl].
  eapply prio_frame_trans; [apply with_monitoring_frame|].
  apply set_setting_frame. discriminate.
Qed.

Lemma with_dedup_frame ms d : prio_frame ms (with_dedup ms d).
Proof. split; reflexivity. Qed.

Lemma yahoo_dedup_frame ms h u now cl : prio_frame ms (snd (yahoo_dedup ms h u now cl)).
Proof.
  unfold yahoo_dedup.
  destruct (_ || _); [apply prio_frame_refl|].
  destruct (bool_decide _); [apply prio_frame_refl|].
  destruct (is_news_seen _ _); [apply prio_frame_refl|]. cbn [snd].
  eapply prio_frame_trans; [apply with_dedup_frame|apply mark_news_seen_frame].
Qed.

Lemma av_dedup_frame ms h u src now cl : prio_frame ms (snd (av_dedup ms h u src now cl)).
Proof.
  unfold av_dedup.
  destruct (bool_decide _); [apply prio_frame_refl|].
  destruct (is_news_seen _ _); [apply with_dedup_frame|].
  assert (H : prio_frame ms (mark_news_seen (with_dedup ms ({[if String.eqb u "" then
            h ++ "|" ++ src else u]} ∪ _news_dedup ms)) (if String.eqb u "" then
            h ++ "|" ++ src else u) now cl)).
  { eapply prio_frame_trans; [apply with_dedup_frame|apply mark_news_seen_frame]. }
  destruct (2000 <? _)%nat; cbn [snd]; [|exact H].
  eapply prio_frame_trans; [exact H|apply with_dedup_frame].
Qed.

Lemma start_prio ms listing :
  db_settings (start ms listing) = db_settings ms /\
  priority_universe (start ms listing) =
    match db_settings ms !! "priority_universe" with
    | Some l => l | None => priority_universe ms end.
Proof.
  unfold start, with_full, add_tickers, with_monitoring, with_priority.
  cbn [db_tickers].
  destruct (db_tickers ms); destruct listing as [[|x xs]|];
    cbn [db_settings db_tickers priority_universe];
    (destruct (db_settings ms !! "monitoring_universe");
     cbn [db_settings priority_universe];
     destruct (db_settings ms !! "priority_universe"); split; reflexivity).
Qed.

Lemma list_remove_length x l : (length (list_remove x l) <= length l)%nat.
Proof. induction l as [|y l IH]; cbn; [lia|]. destruct (String.eqb y x); cbn; lia. Qed.

Lemma run_action_prio_inv ms a : prio_inv ms -> prio_inv (run_action ms a).
Proof.
  intros Hinv. destruct a as [sym pr|sym|sym|sym|listing| |h u now cl|h u src now cl]; cbn.
  - exact (prio_frame_inv _ _ (track_symbol_frame ms sym pr) Hinv).
  - unfold mark_priority.
    destruct (negb _) eqn:E1; [exact Hinv|].
    destruct (str_in _ (priority_universe ms)); [exact Hinv|].
    destruct (5 <=? length (priority_universe ms))%nat eqn:E3; [exact Hinv|].
    apply Nat.leb_gt in E3.
    split; cbn; [rewrite length_app; cbn; lia|].
    intros l. rewrite lookup_insert_eq. intros [= <-]. rewrite length_app. cbn. lia.
  - unfold unmark_priority. destruct (str_in _ _); [|exact Hinv].
    destruct Hinv as [H1 _]. split; cbn.
    + pose proof (list_remove_length (normalize sym) (priority_universe ms)). lia.
    + intros l. rewrite lookup_insert_eq. intros [= <-].
      pose proof (list_remove_length (normalize sym) (priority_universe ms)). lia.
  - exact (prio_frame_inv _ _ (remove_symbol_frame ms sym) Hinv).
  - destruct Hinv as [H1 H2]. destruct (start_prio ms listing) as [Hs Hp].
    split.
    + rewrite Hp. destruct (db_settings ms !! "priority_universe") eqn:E; eauto.
    + rewrite Hs. exact H2.
  - destruct Hinv as [_ H2]. split; cbn; [lia|exact H2].
  - exact (prio_frame_inv _ _ (yahoo_dedup_frame ms h u now cl) Hinv).
  - exact (prio_frame_inv _ _ (av_dedup_frame ms h u src now cl) Hinv).
Qed.

(** C6 (as amended). [mark_priority] returns [False] and changes nothing
    when the normalised symbol is not monitored, or when it is not yet a
    priority symbol and the priority list already holds 5 entries; for a
    symbol that is already a priority symbol it returns [True] and changes
    nothing; in every reachable state the priority list holds at most 5
    symbols. *)
Theorem mark_priority_capacity :
  (forall ms sym, str_in (normalize sym) (monitoring_universe ms) = false ->
     mark_priority ms sym = (false, ms)) /\
  (forall ms sym, str_in (normalize sym) (priority_universe ms) = false ->
     (5 <= length (priority_universe ms))%nat ->
     mark_priority ms sym = (false, ms)) /\
  (forall ms sym, str_in (normalize sym) (monitoring_universe ms) = true ->
     str_in (normalize sym) (priority_universe ms) = true ->
     mark_priority ms sym = (true, ms)) /\
  (forall ms, ms_reachable ms -> (length (priority_universe ms) <= 5)%nat).
Proof.
  split; [|split; [|split]].
  - intros ms sym H. unfold mark_priority. rewrite H. reflexivity.
  - intros ms sym Hp Hfull. unfold mark_priority.
    destruct (str_in _ (monitoring_universe ms)); [|reflexivity]. cbn [negb].
    rewrite Hp. replace (5 <=? length (priority_universe ms))%nat with true;
      [reflexivity|symmetry; apply Nat.leb_le; exact Hfull].
  - intros ms sym Hm Hp. unfold mark_priority. rewrite Hm, Hp. reflexivity.
  - intros ms Hr. enough (prio_inv ms) as [H _] by exact H.
    induction Hr as [|ms a _ IH].
    + split; [cbn; lia|]. intros l. cbn [db_settings new_market_stream]. rewrite lookup_empty. discriminate.
    + apply run_action_prio_inv. exact IH.
Qed.

(** C6, counterexample: with a full priority list, marking one of its own
    symbols again returns [True]. *)
Lemma mark_priority_full_returns_true_cex :
  let ms := with_priority (new_market_stream ∅ [] ∅)
              ["NVDA"; "TSLA"; "AAPL"; "BTC-USD"; "ETH-USD"] in
  length (priority_universe ms) = 5%nat /\ mark_priority ms "NVDA" = (true, ms).
Proof. split; reflexivity. Qed.

(** *** Two-tier deduplication *)

(** C3, failing input: after a restart the key of an already seen Yahoo
    item is in the persistent store only; [_poll_symbol] skips the item but
    leaves the in-memory set empty, whereas [_poll_alpha_vantage] back-fills
    the key on the same store hit. *)
Lemma yahoo_dedup_no_backfill :
  let ms := new_market_stream ∅ [] {["http://x/1" := 0%Q]} in
  yahoo_dedup ms "NVDA beats earnings" "http://x/1" 10 false = (false, ms) /\
  _news_dedup (snd (yahoo_dedup ms "NVDA beats earnings" "http://x/1" 10 false)) = ∅ /\
  _news_dedup (snd (av_dedup ms "NVDA beats earnings" "http://x/1" "AV" 10 false))
    = {["http://x/1"]}.
Proof. split; [|split]; vm_compute; reflexivity. Qed.



Lemma mark_news_seen_records ms key now cl :
  is_news_seen ms key = false ->
  db_seen_news (mark_news_seen ms key now cl) !! key = Some now.
Proof.
  intros Hnew. unfold mark_news_seen. rewrite Hnew. cbn [db_seen_news].
  destruct cl; [|apply lookup_insert_eq].
  apply map_lookup_filter_Some. split; [apply lookup_insert_eq|]. cbn.
  apply Qle_bool_iff. lra.
Qed.




Lemma yahoo_dedup_admit_records ms h u now cl :
  fst (yahoo_dedup ms h u now cl) = true ->
  db_seen_news (snd (yahoo_dedup ms h u now cl)) !! u = Some now.
Proof.
  unfold yahoo_dedup.
  destruct (_ || _); [discriminate|]. destruct (bool_decide _); [discriminate|].
  destruct (is_news_seen ms u) eqn:Es; [discriminate|]. intros _. cbn [snd].
  apply mark_news_seen_records. exact Es.
Qed.



(** *** Per-symbol counts of the ticker manager *)

Lemma refresh_counts_acc (q : list AlertItem) (m : gmap string nat) (s : string) :
  fold_left (fun counts item =>
      <[item_symbol item := default 0%nat (counts !! item_symbol item) + 1]> counts) q m !! s =
  (let n := length (List.filter (fun it => String.eqb (item_symbol it) s) q) in
   match m !! s with
   | Some k => Some (k + n)%nat
   | None => if (n =? 0)%nat then None else Some n
   end).
Proof.
  induction q as [|it q IH] in m |- *; cbn.
  - destruct (m !! s); [f_equal; lia|reflexivity].
  - rewrite IH. destruct (String.eqb (item_symbol it) s) eqn:E.
    + apply String.eqb_eq in E. subst s. rewrite lookup_insert_eq. cbn.
      destruct (m !! item_symbol it); cbn; f_equal; lia.
    + apply String.eqb_neq in E. rewrite lookup_insert_ne by exact E. reflexivity.
Qed.

(** X1. The counts dict that _refresh_ui_watchlist builds maps each symbol to the number of queued alerts for it, and has no key for a symbol with no queued alert. *)
Theorem refresh_ui_watchlist_counts_spec (q : list AlertItem) (s : string) :
  _refresh_ui_watchlist_counts q !! s =
    (let n := length (List.filter (fun it => String.eqb (item_symbol it) s) q) in
     if (n =? 0)%nat then None else Some n).
Proof. unfold _refresh_ui_watchlist_counts. rewrite refresh_counts_acc. reflexivity. Qed.

(** *** Lists without duplicates *)

Lemma str_in_In x l : str_in x l = true <-> In x l.
Proof.
  unfold str_in. rewrite existsb_exists. split.
  - intros (y & Hy & E). apply String.eqb_eq in E. subst. exact Hy.
  - intros H. exists x. split; [exact H|apply String.eqb_refl].
Qed.

Lemma str_in_false x l : str_in x l = false <-> ~ In x l.
Proof. rewrite <- str_in_In. destruct (str_in x l); split; congruence. Qed.

Lemma insert_or_ignore_fold xs acc :
  let r := fold_left (fun acc k => if str_in k acc then acc else app acc [k]) xs acc in
  (exists suf, r = app acc suf) /\
  (forall x, In x r <-> In x acc \/ In x xs) /\
  (NoDup acc -> NoDup r).
Proof.
  cbn zeta. induction xs as [|k xs IH] in acc |- *; cbn.
  - split; [exists []; by rewrite app_nil_r|]. split; [tauto|auto].
  - destruct (str_in k acc) eqn:E.
    + destruct (IH acc) as (H1 & H2 & H3). split; [exact H1|]. split; [|exact H3].
      intros x. rewrite H2. apply str_in_In in E. split; [tauto|].
      intros [?|[->|?]]; tauto.
    + destruct (IH (app acc [k])) as ((suf & Hs) & H2 & H3). split.
      { exists (k :: suf). rewrite Hs, <- app_assoc. reflexivity. }
      split.
      * intros x. rewrite H2, in_app_iff. cbn. tauto.
      * intros Hnd. apply H3. apply NoDup_app. split; [exact Hnd|].
        split; [|apply NoDup_singleton].
        intros y Hy Hy'. apply list_elem_of_singleton in Hy'. subst y.
        apply list_elem_of_In in Hy. apply str_in_false in E. contradiction.
Qed.

(** *** Normalised symbols *)

Fixpoint l_lstrip (l : list Ascii.ascii) : list Ascii.ascii :=
  match l with
  | [] => []
  | c :: r => if is_space c then l_lstrip r else l
  end.

Definition l_strip (l : list Ascii.ascii) : list Ascii.ascii :=
  rev (l_lstrip (rev (l_lstrip l))).

Lemma ascii_upper_space c : is_space (ascii_upper c) = is_space c.
Proof. destruct c as [[] [] [] [] [] [] [] []]; reflexivity. Qed.

Lemma ascii_upper_idem c : ascii_upper (ascii_upper c) = ascii_upper c.
Proof. destruct c as [[] [] [] [] [] [] [] []]; reflexivity. Qed.

Lemma list_of_str_upper s :
  String.list_ascii_of_string (str_upper s) = map ascii_upper (String.list_ascii_of_string s).
Proof. induction s as [|c s IH]; cbn; [reflexivity|]. rewrite IH. reflexivity. Qed.

Lemma list_of_lstrip s :
  String.list_ascii_of_string (lstrip s) = l_lstrip (String.list_ascii_of_string s).
Proof. induction s as [|c s IH]; cbn; [reflexivity|]. destruct (is_space c); [exact IH|reflexivity]. Qed.

Lemma list_of_str_rev s acc :
  String.list_ascii_of_string (str_rev s acc) =
  app (rev (String.list_ascii_of_string s)) (String.list_ascii_of_string acc).
Proof.
  induction s as [|c s IH] in acc |- *; cbn; [reflexivity|].
  rewrite IH. cbn. rewrite <- app_assoc. reflexivity.
Qed.

Lemma list_of_strip s :
  String.list_ascii_of_string (str_strip s) = l_strip (String.list_ascii_of_string s).
Proof.
  unfold str_strip, l_strip.
  rewrite list_of_str_rev, list_of_lstrip, list_of_str_rev, list_of_lstrip. cbn.
  rewrite !app_nil_r. reflexivity.
Qed.

Lemma l_lstrip_map_upper l : l_lstrip (map ascii_upper l) = map ascii_upper (l_lstrip l).
Proof.
  induction l as [|c l IH]; cbn; [reflexivity|].
  rewrite ascii_upper_space. destruct (is_space c); [exact IH|reflexivity].
Qed.

Lemma l_strip_map_upper l : l_strip (map ascii_upper l) = map ascii_upper (l_strip l).
Proof. unfold l_strip. rewrite l_lstrip_map_upper, <- map_rev, l_lstrip_map_upper, map_rev. reflexivity. Qed.

Lemma l_lstrip_idem l : l_lstrip (l_lstrip l) = l_lstrip l.
Proof.
  induction l as [|c l IH]; cbn; [reflexivity|].
  destruct (is_space c) eqn:E; [exact IH|]. cbn. rewrite E. reflexivity.
Qed.

Lemma l_lstrip_snoc m c :
  is_space c = false -> exists q, l_lstrip (app m [c]) = app q [c].
Proof.
  intros Hc. induction m as [|d m IH]; cbn.
  - rewrite Hc. exists []. reflexivity.
  - destruct (is_space d); [exact IH|]. exists (d :: m). reflexivity.
Qed.

Lemma l_lstrip_head l :
  l_lstrip l = [] \/ exists c r, l_lstrip l = c :: r /\ is_space c = false.
Proof.
  induction l as [|d l IH]; cbn; [left; reflexivity|].
  destruct (is_space d) eqn:E; [exact IH|]. right. exists d, l. split; [reflexivity|exact E].
Qed.

Lemma l_lstrip_rev_lstrip l :
  l_lstrip (rev (l_lstrip (rev (l_lstrip l)))) = rev (l_lstrip (rev (l_lstrip l))).
Proof.
  destruct (l_lstrip_head l) as [->|(c & r & -> & Hc)]; [reflexivity|].
  cbn. destruct (l_lstrip_snoc (rev r) c Hc) as [q ->].
  rewrite rev_app_distr. cbn. rewrite Hc. reflexivity.
Qed.

Lemma l_strip_idem l : l_strip (l_strip l) = l_strip l.
Proof.
  unfold l_strip. rewrite l_lstrip_rev_lstrip, rev_involutive. apply l_lstrip_rev_lstrip.
Qed.

Lemma list_of_string_inj s1 s2 :
  String.list_ascii_of_string s1 = String.list_ascii_of_string s2 -> s1 = s2.
Proof.
  intros H. rewrite <- (String.string_of_list_ascii_of_string s1), H.
  apply String.string_of_list_ascii_of_string.
Qed.

Lemma normalize_idem s : normalize (normalize s) = normalize s.
Proof.
  apply list_of_string_inj. unfold normalize.
  repeat rewrite ?list_of_strip, ?list_of_str_upper.
  rewrite !l_strip_map_upper, l_strip_idem, map_map.
  apply map_ext. apply ascii_upper_idem.
Qed.

Lemma normalize_empty s : normalize s = "" <-> str_strip s = "".
Proof.
  unfold normalize. split; intros H.
  - apply (f_equal String.list_ascii_of_string) in H.
    rewrite list_of_strip, list_of_str_upper, l_strip_map_upper in H. cbn in H.
    apply map_eq_nil in H. apply list_of_string_inj. rewrite list_of_strip. exact H.
  - apply (f_equal String.list_ascii_of_string) in H. rewrite list_of_strip in H.
    apply list_of_string_inj.
    rewrite list_of_strip, list_of_str_upper, l_strip_map_upper, H. reflexivity.
Qed.

(** X2. The cleaning step of _process_tickers_async yields a list without duplicates whose elements are exactly the upper-cased, stripped forms of the input tickers that are not blank; each element is non-empty and already normalised. *)
Theorem clean_tickers_spec (tickers : list string) :
  NoDup (clean_tickers tickers) /\
  (forall x, In x (clean_tickers tickers) <->
     exists t, In t tickers /\ str_strip t <> "" /\ x = normalize t) /\
  (forall x, In x (clean_tickers tickers) -> x <> "" /\ normalize x = x).
Proof.
  unfold clean_tickers, dict_fromkeys.
  destruct (insert_or_ignore_fold
              (map (fun t => str_strip (str_upper t))
                 (List.filter (fun t => negb (String.eqb (str_strip t) "")) tickers)) [])
    as (_ & Hin & Hnd).
  assert (Hiff : forall x, In x (fold_left (fun acc k => if str_in k acc then acc else app acc [k])
            (map (fun t => str_strip (str_upper t))
               (List.filter (fun t => negb (String.eqb (str_strip t) "")) tickers)) []) <->
          exists t, In t tickers /\ str_strip t <> "" /\ x = normalize t).
  { intros x. rewrite Hin, in_map_iff. cbn. split.
    - intros [[]|(t & <- & Ht)]. apply filter_In in Ht as [Ht Hne].
      exists t. split; [exact Ht|]. split; [|reflexivity].
      apply String.eqb_neq. destruct (String.eqb (str_strip t) ""); [discriminate|reflexivity].
    - intros (t & Ht & Hne & ->). right. exists t. split; [reflexivity|].
      apply filter_In. split; [exact Ht|]. apply String.eqb_neq in Hne. rewrite Hne. reflexivity. }
  split; [apply Hnd; constructor|]. split; [exact Hiff|].
  intros x Hx. apply Hiff in Hx as (t & _ & Hne & ->). split.
  - intros H. apply (proj1 (normalize_empty t)) in H. contradiction.
  - apply normalize_idem.
Qed.

(** *** Timer and mode of the controller *)

Definition auto_timer_inv (c : Controller) : Prop :=
  String.eqb (mode c) "AUTO" = true -> timer_active c = true.

Lemma try_show_next_auto_timer c : auto_timer_inv c -> auto_timer_inv (fst (_try_show_next c)).
Proof.
  unfold auto_timer_inv, _try_show_next. intros H.
  destruct (alert_queue c); [exact H|].
  destruct (List.find _ _); [|exact H].
  destruct (String.eqb (mode c) "AUTO") eqn:E; cbn; [reflexivity|]. rewrite E. discriminate.
Qed.

Lemma analyze_and_queue_auto_timer c vn p :
  auto_timer_inv c -> auto_timer_inv (_analyze_and_queue c vn p).
Proof.
  unfold _analyze_and_queue. intros H.
  destruct (_ && _ && _); [intros _; reflexivity|exact H].
Qed.

Lemma ctrl_step_auto_timer enrich c c' :
  ctrl_step enrich c c' -> auto_timer_inv c -> auto_timer_inv c'.
Proof.
  intros Hs H. destruct Hs as [verdict now c ev|c c' Htick|c e _|c|c m|c f].
  - unfold process_market_event. destruct (5 <=? _)%nat; [exact H|].
    destruct ev as [symbol source headline sentiment summary url|symbol data|tickers];
      [|exact H|exact H].
    destruct (process _ _ _ _ _ _ _) as [[vn|] agg].
    + apply analyze_and_queue_auto_timer. exact H.
    + exact H.
  - unfold _on_timer_tick in Htick. rewrite call_flush_raises in Htick. discriminate.
  - exact H.
  - apply try_show_next_auto_timer. exact H.
  - unfold set_mode. destruct (String.eqb m "AUTO") eqn:E.
    + apply try_show_next_auto_timer. intros _. reflexivity.
    + unfold auto_timer_inv. cbn. rewrite E. discriminate.
  - unfold update_filter. cbn [mode].
    destruct (String.eqb (mode c) "AUTO"); [apply try_show_next_auto_timer|]; exact H.
Qed.

(** X3. In every reachable controller state, AUTO mode implies the delivery timer is active, and _analyze_and_queue only appends one alert item for the news symbol to the queue (its urgent-trigger branch never fires). *)
Theorem ctrl_auto_timer_active (enrich : VerifiedNews -> list string) (c : Controller) :
  ctrl_reachable enrich c ->
  (String.eqb (mode c) "AUTO" = true -> timer_active c = true) /\
  (forall vn p, _analyze_and_queue c vn p =
     set_queue c (app (alert_queue c) [mkAlertItem (vn_symbol vn) p])).
Proof.
  intros Hr. assert (H : auto_timer_inv c).
  { induction Hr as [|c c' _ IH Hs]; [intros _; reflexivity|].
    exact (ctrl_step_auto_timer enrich c c' Hs IH). }
  split; [exact H|]. intros vn p. unfold _analyze_and_queue.
  cbn [alert_queue mode timer_active set_queue].
  destruct (String.eqb (mode c) "AUTO") eqn:E.
  - rewrite (H E). rewrite andb_false_r. reflexivity.
  - rewrite andb_false_r, andb_false_l. reflexivity.
Qed.

(** *** The simulated agent *)



Lemma max_by_len_fold rest x :
  let b := fold_left (fun best s =>
             if (String.length best <? String.length s)%nat then s else best) rest x in
  (b = x \/ In b rest) /\ (String.length x <= String.length b)%nat /\
  Forall (fun y => (String.length y <= String.length b)%nat) rest.
Proof.
  cbn zeta. induction rest as [|y rest IH] in x |- *; cbn [fold_left In].
  - split; [left; reflexivity|]. split; [lia|constructor].
  - destruct (String.length x <? String.length y)%nat eqn:E.
    + apply Nat.ltb_lt in E. destruct (IH y) as (H1 & H2 & H3).
      split; [destruct H1 as [H1|H1]; [right; left; symmetry; exact H1|tauto]|]. split; [lia|]. constructor; [exact H2|exact H3].
    + apply Nat.ltb_ge in E. destruct (IH x) as (H1 & H2 & H3).
      split; [tauto|]. split; [lia|]. constructor; [lia|exact H3].
Qed.

Lemma max_by_len_spec xs :
  (max_by_len xs = None <-> xs = []) /\
  (forall b, max_by_len xs = Some b ->
     In b xs /\ Forall (fun y => (String.length y <= String.length b)%nat) xs).
Proof.
  destruct xs as [|x rest]; cbn.
  - split; [tauto|]. discriminate.
  - split; [split; discriminate|]. intros b [= <-].
    destruct (max_by_len_fold rest x) as (H1 & H2 & H3).
    split; [destruct H1 as [H1|H1]; [left; symmetry; exact H1|right; exact H1]|].
    constructor; [exact H2|exact H3].
Qed.

(** X5. A consensus emitted by process carries only non-empty summaries; its summary is absent exactly when there are none, and is otherwise one of the longest of them; its impact is _analyze_impact of the headline and that summary. *)
Theorem process_emitted_summaries agg now src sym h s sum v agg' :
  process agg now src sym h s sum = (Some v, agg') ->
  Forall (fun x => x <> "") (vn_all_summaries v) /\
  (vn_summary v = None <-> vn_all_summaries v = []) /\
  (forall b, vn_summary v = Some b ->
     In b (vn_all_summaries v) /\
     Forall (fun x => (String.length x <= String.length b)%nat) (vn_all_summaries v)) /\
  vn_impact v = _analyze_impact h (vn_summary v).
Proof.
  unfold process. destruct (existsb _ _); [discriminate|].
  destruct (_ <=? _)%Z; [|discriminate]. intros [= <- _]. cbn.
  destruct (max_by_len_spec
    (flat_map (fun n => match e_summary n with
                        | Some s => if opt_str_truthy (Some s) then [s] else []
                        | None => []
                        end)
       (app (List.filter (not_expired (ttl agg) now)
               (match buffer agg !! sym with Some l => l | None => [] end))
            [mkEntry src h s sum now]))) as (Hn & Hs).
  split; [|split; [exact Hn|split; [exact Hs|reflexivity]]].
  apply List.Forall_forall. intros x Hx. apply in_flat_map in Hx as (n & _ & Hx).
  destruct (e_summary n) as [y|]; [|destruct Hx].
  cbn in Hx. destruct (String.eqb y "") eqn:E; cbn in Hx; [destruct Hx|].
  destruct Hx as [<-|[]]. apply String.eqb_neq. exact E.
Qed.

Lemma agg_reachable_sources_nodup agg :
  agg_reachable agg -> forall k l, buffer agg !! k = Some l -> NoDup (map e_source l).
Proof.
  induction 1 as [t|agg now src sym h s sum _ IH].
  - intros k l. cbn. rewrite lookup_empty. discriminate.
  - apply process_sources_nodup. exact IH.
Qed.

(** X6. From a reachable aggregator, an emitted consensus has distinct sources ending with the reporting source, at least threshold of them, carries the call's symbol, headline, sentiment and time, and leaves the symbol's buffer empty. *)
Theorem process_consensus_sources (agg : NewsAggregator) :
  agg_reachable agg ->
  forall now src sym h s sum v agg',
    process agg now src sym h s sum = (Some v, agg') ->
    NoDup (vn_sources v) /\ last (vn_sources v) = Some src /\
    (threshold agg <= Z.of_nat (length (vn_sources v)))%Z /\
    vn_symbol v = sym /\ vn_headline v = h /\ vn_sentiment v = s /\ vn_timestamp v = now /\
    buffer agg' !! sym = Some [].
Proof.
  intros Hr now src sym h s sum v agg'.
  pose proof (agg_reachable_sources_nodup agg Hr) as Hinv.
  unfold process.
  set (b0 := match buffer agg !! sym with Some l => l | None => [] end).
  assert (Hb0 : NoDup (map e_source b0)).
  { unfold b0. destruct (buffer agg !! sym) eqn:E; [eauto|constructor]. }
  pose proof (NoDup_map_source_filter (not_expired (ttl agg) now) b0 Hb0) as Hb1.
  destruct (existsb _ _) eqn:Eex; [discriminate|].
  destruct (_ <=? _)%Z eqn:Eth; [|discriminate]. intros [= <- <-]. cbn.
  rewrite map_app. cbn. split; [|split; [apply last_snoc|split]].
  - apply NoDup_app. split; [exact Hb1|]. split; [|apply NoDup_singleton].
    intros x Hx Hx'. apply list_elem_of_singleton in Hx'. subst x.
    apply list_elem_of_In, in_map_iff in Hx as (n & Hn & Hnin).
    assert (existsb (fun n => String.eqb (e_source n) src)
              (List.filter (not_expired (ttl agg) now) b0) = true) as Hc.
    { apply existsb_exists. exists n. split; [exact Hnin|]. apply String.eqb_eq. exact Hn. }
    congruence.
  - apply Z.leb_le in Eth. rewrite length_app, length_map. rewrite length_app in Eth. exact Eth.
  - split; [reflexivity|split; [reflexivity|split; [reflexivity|split; [reflexivity|]]]].
    apply lookup_insert_eq.
Qed.

Lemma process_low_threshold agg now src sym h s sum :
  (threshold agg <= 1)%Z ->
  (buffer agg !! sym = None \/ buffer agg !! sym = Some []) ->
  exists v, process agg now src sym h s sum =
              (Some v, set_buffer agg (<[sym := []]> (buffer agg))) /\
    vn_symbol v = sym /\ vn_headline v = h /\ vn_sources v = [src] /\ vn_sentiment v = s /\
    vn_timestamp v = now /\
    vn_summary v = match sum with
                   | Some x => if String.eqb x "" then None else Some x
                   | None => None
                   end.
Proof.
  intros Ht Hb. unfold process.
  destruct Hb as [-> | ->]; cbn;
    (replace (threshold agg <=? Z.of_nat 1)%Z with true
       by (symmetry; apply Z.leb_le; lia));
    (eexists; split; [reflexivity|]); cbn;
    (split; [reflexivity|split; [reflexivity|split; [reflexivity|split; [reflexivity|
      split; [reflexivity|]]]]]);
    destruct sum as [x|]; cbn; [|reflexivity|destruct (String.eqb x ""); reflexivity|reflexivity];
    destruct (String.eqb x ""); reflexivity.
Qed.

(** X7. From a reachable aggregator with threshold at most 1, all buffers are empty and every report is emitted at once with the single source, the call's fields and its summary when non-empty. *)
Theorem process_low_threshold_passthrough (agg : NewsAggregator) :
  agg_reachable agg -> (threshold agg <= 1)%Z ->
  (forall k l, buffer agg !! k = Some l -> l = []) /\
  (forall now src sym h s sum,
     exists v, process agg now src sym h s sum =
                 (Some v, set_buffer agg (<[sym := []]> (buffer agg))) /\
       vn_symbol v = sym /\ vn_headline v = h /\ vn_sources v = [src] /\ vn_sentiment v = s /\
       vn_timestamp v = now /\
       vn_summary v = match sum with
                      | Some x => if String.eqb x "" then None else Some x
                      | None => None
                      end).
Proof.
  intros Hr Ht.
  assert (Hempty : forall k l, buffer agg !! k = Some l -> l = []).
  { induction Hr as [t|agg now src sym h s sum _ IH].
    - intros k l. cbn. rewrite lookup_empty. discriminate.
    - pose proof (process_buffer_cases agg now src sym h s sum) as (Hth & _ & Hother & _).
      rewrite Hth in Ht. specialize (IH Ht).
      assert (Hb : buffer agg !! sym = None \/ buffer agg !! sym = Some []).
      { destruct (buffer agg !! sym) as [l|] eqn:E; [right; f_equal; exact (IH sym l E)|left; reflexivity]. }
      destruct (process_low_threshold agg now src sym h s sum Ht Hb) as (v & Hp & _).
      rewrite Hp. cbn. intros k l. destruct (decide (k = sym)) as [->|Hk].
      + rewrite lookup_insert_eq. congruence.
      + rewrite lookup_insert_ne by congruence. apply IH. }
  split; [exact Hempty|]. intros now src sym h s sum.
  apply process_low_threshold; [exact Ht|].
  destruct (buffer agg !! sym) as [l|] eqn:E; [right; f_equal; exact (Hempty sym l E)|left; reflexivity].
Qed.

(** X8. process leaves the buffer of every other symbol, the threshold and the ttl unchanged. *)
Theorem process_other_symbols_untouched agg now src sym h s sum k :
  k <> sym ->
  buffer (snd (process agg now src sym h s sum)) !! k = buffer agg !! k /\
  threshold (snd (process agg now src sym h s sum)) = threshold agg /\
  ttl (snd (process agg now src sym h s sum)) = ttl agg.
Proof.
  intros Hk. pose proof (process_buffer_cases agg now src sym h s sum) as (Hth & Httl & Hother & _).
  split; [exact (Hother k Hk)|]. split; [exact Hth|exact Httl].
Qed.

(** X9. The score of FundamentalAnalyst.analyze is 50 plus the weights of the listed reasons, clamped to [0, 100]; the reasons are distinct and at most four. *)
Theorem analyze_reasons_explain_score (d : FundamentalData) :
  fst (analyze d) =
    (Z.max 0 (Z.min 100 (50 + fold_right Z.add 0 (map reason_weight (snd (analyze d))))))%Z /\
  NoDup (snd (analyze d)) /\ (length (snd (analyze d)) <= 4)%nat.
Proof.
  unfold analyze.
  destruct (flt_gt (revenue_growth d) lit_0_10), (flt_lt (revenue_growth d) lit_0),
    (flt_gt (net_margin d) lit_0_15), (flt_gt (debt_to_equity d) lit_2_0),
    (String.eqb (guidance d) "RAISED"), (String.eqb (guidance d) "LOWERED"); cbn;
    (split; [reflexivity|split; [apply (bool_decide_unpack _); vm_compute; reflexivity|lia]]).
Qed.


Lemma NoDup_snoc_fresh (l : list string) x : NoDup l -> ~ In x l -> NoDup (app l [x]).
Proof.
  intros Hnd Hx. apply NoDup_app. split; [exact Hnd|]. split; [|apply NoDup_singleton].
  intros y Hy Hy'. apply list_elem_of_singleton in Hy'. subst y.
  apply list_elem_of_In in Hy. contradiction.
Qed.



(** *** The persisted universe lists *)

(** The operations that touch only the dedup set and the [seen_news] table. *)
Definition store_frame (ms ms' : MarketStream) : Prop :=
  running ms' = running ms /\ monitoring_universe ms' = monitoring_universe ms /\
  priority_universe ms' = priority_universe ms /\ full_universe ms' = full_universe ms /\
  db_settings ms' = db_settings ms /\ db_tickers ms' = db_tickers ms.


Lemma av_dedup_store_frame ms h u src now cl :
  store_frame ms (snd (av_dedup ms h u src now cl)).
Proof.
  unfold av_dedup, store_frame.
  destruct (bool_decide _); [repeat split|].
  destruct (is_news_seen _ _); [repeat split|].
  destruct (2000 <? _)%nat; repeat split.
Qed.












(** *** The tickers table *)





(** X13. add_tickers only appends to the tickers table, which afterwards holds exactly the old tickers and the given ones, and stays without duplicates. *)
Theorem add_tickers_insert_or_ignore (ms : MarketStream) (ts : list string) :
  (exists suf, db_tickers (add_tickers ms ts) = app (db_tickers ms) suf) /\
  (forall x, In x (db_tickers (add_tickers ms ts)) <-> In x (db_tickers ms) \/ In x ts) /\
  (NoDup (db_tickers ms) -> NoDup (db_tickers (add_tickers ms ts))).
Proof. exact (insert_or_ignore_fold ts (db_tickers ms)). Qed.

(** *** The seen_news table *)



(** *** The two polling loops *)

(** X16. The standard loop polls exactly the monitored symbols that are not priority symbols; remove_symbol and track_symbol never change the priority list. *)
Theorem poll_loops_partition (ms : MarketStream) :
  (forall s, In s (standard_list ms) <->
     In s (monitoring_universe ms) /\ ~ In s (priority_universe ms)) /\
  (forall sym, priority_universe (remove_symbol ms sym) = priority_universe ms) /\
  (forall sym pr, priority_universe (snd (fst (track_symbol ms sym pr))) =
     priority_universe ms).
Proof.
  split_and!.
  - intros s. unfold standard_list. rewrite filter_In, <- str_in_false.
    destruct (str_in s (priority_universe ms)); cbn; intuition congruence.
  - intros sym. apply (remove_symbol_frame ms sym).
  - intros sym pr. apply (track_symbol_frame ms sym pr).
Qed.


(** *** The Yahoo poller *)

Lemma yahoo_dedup_cases ms h u now cl :
  yahoo_dedup ms h u now cl = (false, ms) \/
  ((u ∉ _news_dedup ms) /\ u <> "" /\ fst (yahoo_dedup ms h u now cl) = true /\
   _news_dedup (snd (yahoo_dedup ms h u now cl)) = {[u]} ∪ _news_dedup ms).
Proof.
  unfold yahoo_dedup.
  destruct (String.eqb h "No Headline" || String.eqb u "") eqn:E1; [left; reflexivity|].
  destruct (bool_decide (u ∈ _news_dedup ms)) eqn:E2; [left; reflexivity|].
  destruct (is_news_seen _ _); [left; reflexivity|]. right.
  apply orb_false_iff in E1 as [_ E1]. apply String.eqb_neq in E1.
  apply bool_decide_eq_false in E2. split_and!; [exact E2|exact E1|reflexivity|reflexivity].
Qed.

Lemma event_urls_app evs evs' : event_urls (app evs evs') = app (event_urls evs) (event_urls evs').
Proof. unfold event_urls. apply flat_map_app. Qed.

Lemma event_symbols_app evs evs' :
  event_symbols (app evs evs') = app (event_symbols evs) (event_symbols evs').
Proof. unfold event_symbols. apply flat_map_app. Qed.

(** What the news loop of [_poll_symbol] keeps, from the state [ms0] it
    started in. *)
Definition yahoo_loop_inv (ms0 : MarketStream) (symbol : string)
    (st : list MarketEvent * MarketStream) : Prop :=
  NoDup (event_urls (fst st)) /\
  (forall u, In u (event_urls (fst st)) ->
     (u ∉ _news_dedup ms0) /\ u ∈ _news_dedup (snd st) /\ u <> "") /\
  _news_dedup ms0 ⊆ _news_dedup (snd st) /\
  (forall s, In s (event_symbols (fst st)) -> s = symbol).

Lemma yahoo_item_step_inv ms0 symbol st x :
  yahoo_loop_inv ms0 symbol st ->
  yahoo_loop_inv ms0 symbol (yahoo_item_step symbol st x) /\
  (length (event_urls (fst (yahoo_item_step symbol st x))) <=
   length (event_urls (fst st)) + 1)%nat.
Proof.
  destruct st as [evs m], x as [latest [now cl]]. unfold yahoo_item_step.
  set (content := match yi_content latest with Some c => c | None => yi_fields latest end).
  unfold yahoo_loop_inv. cbn [fst snd]. intros (H1 & H2 & H3 & H4).
  destruct (yahoo_dedup_cases m (yahoo_headline content) (yahoo_url content) now cl)
    as [E|(Hfresh & Hne & Hadm & Hded)].
  - rewrite E. cbv beta iota. cbn [fst snd]. split; [split_and!; assumption|lia].
  - destruct (yahoo_dedup m (yahoo_headline content) (yahoo_url content) now cl)
      as [adm m1] eqn:E.
    cbn in Hadm, Hded. subst adm. cbv beta iota. cbn [fst snd].
    rewrite event_urls_app. cbn [event_urls flat_map app].
    split; [|rewrite length_app; cbn; lia].
    split_and!.
    + apply NoDup_snoc_fresh; [exact H1|]. intros Hin.
      destruct (H2 _ Hin) as (_ & Hin' & _). contradiction.
    + intros u Hu. apply in_app_iff in Hu as [Hu|[<-|[]]].
      * destruct (H2 u Hu) as (A & B & C). split_and!; [exact A|rewrite Hded; set_solver|exact C].
      * split_and!; [set_solver|rewrite Hded; set_solver|exact Hne].
    + rewrite Hded. set_solver.
    + intros s Hs. rewrite event_symbols_app in Hs. apply in_app_iff in Hs as [Hs|[<-|[]]];
        [exact (H4 s Hs)|reflexivity].
Qed.

Lemma yahoo_fold_inv ms0 symbol items st :
  yahoo_loop_inv ms0 symbol st ->
  yahoo_loop_inv ms0 symbol (fold_left (yahoo_item_step symbol) items st) /\
  (length (event_urls (fst (fold_left (yahoo_item_step symbol) items st))) <=
   length (event_urls (fst st)) + length items)%nat.
Proof.
  induction items as [|x items IH] in st |- *; cbn; intros H; [split; [exact H|lia]|].
  destruct (yahoo_item_step_inv ms0 symbol st x H) as [H' Hlen].
  destruct (IH _ H') as [H'' Hlen']. split; [exact H''|lia].
Qed.

(** X17. _poll_symbol emits at most 5 (priority) or 2 news events with distinct, non-empty URLs that were not in the dedup set before and are in it afterwards; the dedup set only grows and every event is for the polled symbol. *)
Theorem poll_symbol_news_dedup (ms : MarketStream) (symbol : string) (is_priority : bool)
    (news_list : list (YahooItem * (Q * bool))) (fundamentals : option FundamentalData) :
  let r := _poll_symbol ms symbol is_priority news_list fundamentals in
  (length (event_urls (fst r)) <= if is_priority then 5 else 2)%nat /\
  NoDup (event_urls (fst r)) /\
  (forall u, In u (event_urls (fst r)) ->
     (u ∉ _news_dedup ms) /\ u ∈ _news_dedup (snd r) /\ u <> "") /\
  _news_dedup ms ⊆ _news_dedup (snd r) /\
  (forall s, In s (event_symbols (fst r)) -> s = symbol).
Proof.
  cbn zeta. unfold _poll_symbol.
  set (limit := if is_priority then 5%nat else 2%nat).
  assert (H0 : yahoo_loop_inv ms symbol ([], ms)).
  { split_and!; cbn; [constructor|tauto|set_solver|tauto]. }
  destruct (yahoo_fold_inv ms symbol (firstn limit news_list) ([], ms) H0)
    as ((H1 & H2 & H3 & H4) & Hlen).
  destruct (fold_left (yahoo_item_step symbol) (firstn limit news_list) ([], ms))
    as [evs ms1] eqn:E. cbn [fst snd] in *.
  assert (Hf : event_urls (match fundamentals with
                           | Some d => [Fundamentals symbol d] | None => [] end) = []).
  { destruct fundamentals; reflexivity. }
  assert (Hs : event_symbols (match fundamentals with
                              | Some d => [Fundamentals symbol d] | None => [] end) = []).
  { destruct fundamentals; reflexivity. }
  rewrite event_urls_app, Hf, app_nil_r, event_symbols_app, Hs, app_nil_r.
  split_and!; [|exact H1|exact H2|exact H3|exact H4].
  pose proof (length_firstn limit news_list). cbn in Hlen. unfold limit in *.
  destruct is_priority; lia.
Qed.

(** *** The Alpha Vantage poller *)

Lemma av_symbol_valid_full ms ms' s :
  full_universe ms' = full_universe ms -> av_symbol_valid ms' s = av_symbol_valid ms s.
Proof. intros E. unfold av_symbol_valid. rewrite E. reflexivity. Qed.

Lemma av_item_step_inv ms0 st x :
  full_universe (snd st) = full_universe ms0 ->
  (forall s, In s (event_symbols (fst st)) -> av_symbol_valid ms0 s = true) ->
  full_universe (snd (av_item_step st x)) = full_universe ms0 /\
  (forall s, In s (event_symbols (fst (av_item_step st x))) -> av_symbol_valid ms0 s = true).
Proof.
  destruct st as [evs m], x as [item [now cl]]. unfold av_item_step. cbn [fst snd].
  intros Hf Hv.
  destruct (av_dedup_store_frame m (get_or (av_title item) "No Headline")
              (get_or (av_url item) "") (get_or (av_source item) "Alpha Vantage") now cl)
    as (_ & _ & _ & Hf1 & _).
  destruct (av_dedup m _ _ _ now cl) as [adm m1]. cbn [snd] in Hf1.
  destruct adm; cbn [fst snd]; [|split; [congruence|exact Hv]].
  split; [congruence|].
  intros s Hs. rewrite event_symbols_app in Hs. apply in_app_iff in Hs as [Hs|Hs]; [exact (Hv s Hs)|].
  unfold event_symbols in Hs. apply in_flat_map in Hs as (e & He & Hs).
  apply in_flat_map in He as (ts & _ & He).
  destruct (ts_ticker ts) as [av_symbol|]; [|destruct He].
  destruct (av_symbol_valid m1 av_symbol) eqn:Ev; [|destruct He].
  destruct He as [<-|[]]. cbn in Hs. destruct Hs as [<-|[]].
  rewrite <- (av_symbol_valid_full ms0 m1) by congruence. exact Ev.
Qed.

(** X18. _poll_alpha_vantage leaves the full universe unchanged and emits news only for symbols of the full universe, or, when it is empty, for non-empty alphabetic symbols. *)
Theorem poll_alpha_vantage_valid_symbols (ms : MarketStream)
    (news_feed : list (AvItem * (Q * bool))) :
  let r := _poll_alpha_vantage ms news_feed in
  full_universe (snd r) = full_universe ms /\
  (forall s, In s (event_symbols (fst r)) ->
     match full_universe ms with
     | [] => s <> "" /\ str_isalpha s = true
     | _ :: _ => In s (full_universe ms)
     end).
Proof.
  cbn zeta. unfold _poll_alpha_vantage.
  assert (H : forall feed st,
    full_universe (snd st) = full_universe ms ->
    (forall s, In s (event_symbols (fst st)) -> av_symbol_valid ms s = true) ->
    full_universe (snd (fold_left av_item_step feed st)) = full_universe ms /\
    (forall s, In s (event_symbols (fst (fold_left av_item_step feed st))) ->
       av_symbol_valid ms s = true)).
  { induction feed as [|x feed IH]; intros st Hf Hv; cbn; [split; assumption|].
    destruct (av_item_step_inv ms st x Hf Hv) as [Hf' Hv']. exact (IH _ Hf' Hv'). }
  destruct (H news_feed ([], ms) eq_refl ltac:(cbn; tauto)) as [Hf Hv].
  split; [exact Hf|]. intros s Hs. specialize (Hv s Hs). unfold av_symbol_valid in Hv.
  destruct (full_universe ms) as [|f fs].
  - apply andb_true_iff in Hv as [Hv1 Hv2]. split; [|exact Hv2].
    apply String.eqb_neq. destruct (String.eqb s ""); [discriminate|reflexivity].
  - apply str_in_In. exact Hv.
Qed.

(** *** The tickers sent to Alpha Vantage *)

Lemma split_dash_head_no_dash t : str_contains "-" (split_dash_head t) = false.
Proof.
  induction t as [|c r IH]; [reflexivity|].
  cbn [split_dash_head]. destruct (Ascii.eqb c (Ascii.ascii_of_nat 45)) eqn:Ec; [reflexivity|].
  cbn [str_contains String.prefix]. rewrite IH.
  lazymatch goal with |- context [Ascii.ascii_dec ?a c] => destruct (Ascii.ascii_dec a c) as [E|E] end;
    [|reflexivity].
  subst c. cbn in Ec. discriminate.
Qed.

Lemma split_dash_head_prefix t :
  String.prefix "^" (split_dash_head t) = true -> String.prefix "^" t = true.
Proof.
  destruct t as [|c r]; [discriminate|].
  cbn [split_dash_head]. destruct (Ascii.eqb c (Ascii.ascii_of_nat 45)); [discriminate|].
  cbn [String.prefix].
  lazymatch goal with |- context [Ascii.ascii_dec ?a c] => destruct (Ascii.ascii_dec a c) end;
    [intros _; destruct r; reflexivity|discriminate].
Qed.

Lemma av_ticker_of_shape t x :
  av_ticker_of t = Some x -> str_contains "-" x = false /\ String.prefix "^" x = false.
Proof.
  unfold av_ticker_of.
  destruct (str_contains "-" t && negb (String.prefix "^" t)) eqn:E1.
  - intros [= <-]. apply andb_true_iff in E1 as [_ E1]. apply negb_true_iff in E1.
    split; [apply split_dash_head_no_dash|].
    destruct (String.prefix "^" (split_dash_head t)) eqn:E; [|reflexivity].
    rewrite (split_dash_head_prefix t E) in E1. discriminate.
  - destruct (String.eqb t "EURUSD=X"); [intros [= <-]; split; reflexivity|].
    destruct (String.prefix "^" t) eqn:E2.
    + destruct (String.eqb t "^GSPC"); [intros [= <-]; split; reflexivity|].
      destruct (String.eqb t "^IXIC"); [intros [= <-]; split; reflexivity|discriminate].
    + intros [= <-]. rewrite andb_true_r in E1. split; [exact E1|exact E2].
Qed.

(** X19. The tickers sent to Alpha Vantage are at most as many as the given ones, and none contains a dash or starts with ^. *)
Theorem av_tickers_shape (tickers : list string) :
  (length (av_tickers tickers) <= length tickers)%nat /\
  (forall x, In x (av_tickers tickers) ->
     str_contains "-" x = false /\ String.prefix "^" x = false).
Proof.
  split.
  - unfold av_tickers. induction tickers as [|t ts IH]; cbn [flat_map length]; [lia|].
    rewrite length_app. destruct (av_ticker_of t); cbn [length]; lia.
  - intros x Hx. unfold av_tickers in Hx. apply in_flat_map in Hx as (t & _ & Hx).
    destruct (av_ticker_of t) as [y|] eqn:E; [|destruct Hx].
    destruct Hx as [<-|[]]. exact (av_ticker_of_shape t y E).
Qed.

(** ** Witnesses: the theorems applied at concrete inputs *)

Lemma process_same_source_no_double_count_witness :
  let p1 := process (new_aggregator 2) 0 "Yahoo" "NVDA" "NVDA beats earnings" "NEUTRAL" None in
  let p2 := process (snd p1) 5 "AlphaVantage" "NVDA" "NVDA beats earnings" "NEUTRAL" None in
  let p3 := process (snd p2) 6 "Yahoo" "NVDA" "NVDA beats earnings" "NEUTRAL" None in
  fst p1 = None /\
  (exists v, fst p2 = Some v /\ vn_sources v = ["Yahoo"; "AlphaVantage"] /\ vn_symbol v = "NVDA") /\
  fst p3 = None.
Proof.
  apply (proj2 process_same_source_no_double_count);
    [reflexivity|left; reflexivity|discriminate|unfold Qlt; simpl; lia].
Defined.

Lemma process_ttl_purge_witness :
  let p1 := process (new_aggregator 2) 0 "Yahoo" "NVDA" "NVDA beats earnings" "NEUTRAL" None in
  let p2 := process (snd p1) 40 "AlphaVantage" "NVDA" "NVDA beats earnings" "NEUTRAL" None in
  fst p1 = None /\ fst p2 = None /\
  buffer (snd p2) !! "NVDA" = Some [mkEntry "AlphaVantage" "NVDA beats earnings" "NEUTRAL" None 40].
Proof.
  apply (proj1 (proj2 process_ttl_purge));
    [reflexivity|left; reflexivity|unfold Qle; simpl; lia].
Defined.

Lemma analyze_impact_tiers_witness :
  _analyze_impact "Acme halts trading" None = "CRITICAL".
Proof.
  apply (proj1 (analyze_impact_tiers "Acme halts trading" None)).
  exists "HALT". split; [right; left; reflexivity|reflexivity].
Defined.

Lemma try_show_next_first_match_witness :
  snd (_try_show_next (mkController [mkAlertItem "A" ["a1"]; mkAlertItem "B" ["b"];
         mkAlertItem "A" ["a2"]] "MANUAL" "A" false (new_aggregator 1)))
    = Some (mkAlertItem "A" ["a1"]) /\
  alert_queue (fst (_try_show_next (mkController [mkAlertItem "A" ["a1"];
         mkAlertItem "B" ["b"]; mkAlertItem "A" ["a2"]] "MANUAL" "A" false (new_aggregator 1))))
    = [mkAlertItem "B" ["b"]; mkAlertItem "A" ["a2"]].
Proof.
  destruct (proj2 (try_show_next_first_match (mkController [mkAlertItem "A" ["a1"];
         mkAlertItem "B" ["b"]; mkAlertItem "A" ["a2"]] "MANUAL" "A" false (new_aggregator 1)))
         [] (mkAlertItem "A" ["a1"]) [mkAlertItem "B" ["b"]; mkAlertItem "A" ["a2"]]
         eq_refl (List.Forall_nil _) eq_refl) as (H1 & H2 & _).
  split; [exact H1|exact H2].
Defined.

Lemma delivery_queue_bounded_witness :
  process_market_event (fun _ => ["payload"]) "HOLD (50%)" 0
    (mkController (repeat (mkAlertItem "NVDA" ["x"]) 5) "AUTO" "ALL" true (new_aggregator 1))
    (RawNews "TSLA" (Some "Reuters (via Yahoo)") "TSLA halts production" None None None)
  = mkController (repeat (mkAlertItem "NVDA" ["x"]) 5) "AUTO" "ALL" true (new_aggregator 1).
Proof. apply (proj1 delivery_queue_bounded). simpl. lia. Defined.

Lemma track_symbol_invalid_no_mutation_witness :
  track_symbol (new_market_stream ∅ [] ∅) " zzzq " (mkProbe (Some false) (Some false))
  = (false, new_market_stream ∅ [] ∅, None).
Proof. apply track_symbol_invalid_no_mutation; reflexivity. Defined.

Lemma mark_priority_capacity_witness :
  mark_priority (mkMarketStream false ["NVDA"; "TSLA"; "AAPL"; "BTC-USD"; "ETH-USD"; "MSFT"]
                   ["NVDA"; "TSLA"; "AAPL"; "BTC-USD"; "ETH-USD"] [] ∅ ∅ [] ∅) "msft"
  = (false, mkMarketStream false ["NVDA"; "TSLA"; "AAPL"; "BTC-USD"; "ETH-USD"; "MSFT"]
                   ["NVDA"; "TSLA"; "AAPL"; "BTC-USD"; "ETH-USD"] [] ∅ ∅ [] ∅).
Proof. apply (proj1 (proj2 mark_priority_capacity)); [reflexivity|simpl; lia]. Defined.

Lemma clean_tickers_spec_witness :
  clean_tickers [" nvda "; "NVDA"; "   "; "tsla"] = ["NVDA"; "TSLA"] /\
  "NVDA" <> "" /\ normalize "NVDA" = "NVDA".
Proof.
  split; [vm_compute; reflexivity|].
  apply (proj2 (proj2 (clean_tickers_spec [" nvda "; "NVDA"; "   "; "tsla"]))).
  vm_compute. left. reflexivity.
Defined.

Lemma ctrl_auto_timer_active_witness :
  let c := set_mode (set_mode init_controller "MANUAL") "AUTO" in
  String.eqb (mode c) "AUTO" = true /\ timer_active c = true.
Proof.
  cbv zeta. split; [vm_compute; reflexivity|].
  apply (proj1 (ctrl_auto_timer_active (fun _ => []) _
    (cr_step _ _ _ (cr_step _ _ _ (cr_init _) (cs_mode _ init_controller "MANUAL"))
       (cs_mode _ _ "AUTO")))).
  vm_compute. reflexivity.
Defined.


Lemma process_emitted_summaries_witness :
  let agg1 := snd (process (new_aggregator 2) 0 "Yahoo" "NVDA" "NVDA beats" "NEUTRAL" (Some "Short")) in
  exists v agg',
    process agg1 5 "AlphaVantage" "NVDA" "NVDA beats" "BULLISH" (Some "A longer summary")
      = (Some v, agg') /\
    vn_all_summaries v = ["Short"; "A longer summary"] /\
    (forall b, vn_summary v = Some b ->
       In b (vn_all_summaries v) /\
       Forall (fun x => (String.length x <= String.length b)%nat) (vn_all_summaries v)).
Proof.
  cbv zeta. eexists; eexists. split; [vm_compute; reflexivity|]. split; [reflexivity|].
  exact (proj1 (proj2 (proj2 (process_emitted_summaries
    (snd (process (new_aggregator 2) 0 "Yahoo" "NVDA" "NVDA beats" "NEUTRAL" (Some "Short")))
    5 "AlphaVantage" "NVDA" "NVDA beats" "BULLISH" (Some "A longer summary") _ _ eq_refl)))).
Defined.

Lemma process_consensus_sources_witness :
  let agg1 := snd (process (new_aggregator 2) 0 "Yahoo" "NVDA" "NVDA beats" "NEUTRAL" None) in
  exists v agg',
    process agg1 5 "AlphaVantage" "NVDA" "NVDA beats" "NEUTRAL" None = (Some v, agg') /\
    NoDup (vn_sources v) /\ last (vn_sources v) = Some "AlphaVantage" /\
    buffer agg' !! "NVDA" = Some [].
Proof.
  cbv zeta. eexists; eexists. split; [vm_compute; reflexivity|].
  destruct (process_consensus_sources _
    (ar_process _ 0 "Yahoo" "NVDA" "NVDA beats" "NEUTRAL" None (ar_init 2))
    5 "AlphaVantage" "NVDA" "NVDA beats" "NEUTRAL" None _ _ eq_refl)
    as (Hnd & Hl & _ & _ & _ & _ & _ & Hb).
  split; [exact Hnd|split; [exact Hl|exact Hb]].
Defined.

Lemma process_low_threshold_passthrough_witness :
  exists v,
    process (new_aggregator 1) 0 "Yahoo" "NVDA" "NVDA beats" "NEUTRAL" (Some "") =
      (Some v, set_buffer (new_aggregator 1) (<["NVDA" := []]> (buffer (new_aggregator 1)))) /\
    vn_sources v = ["Yahoo"] /\ vn_summary v = None.
Proof.
  destruct (proj2 (process_low_threshold_passthrough (new_aggregator 1) (ar_init 1)
    ltac:(cbn; lia)) 0%Q "Yahoo" "NVDA" "NVDA beats" "NEUTRAL" (Some ""))
    as (v & Hp & _ & _ & Hs & _ & _ & Hsum).
  exists v. split; [exact Hp|]. split; [exact Hs|]. rewrite Hsum. reflexivity.
Defined.

Lemma process_other_symbols_untouched_witness :
  let agg1 := snd (process (new_aggregator 2) 0 "Yahoo" "TSLA" "TSLA halts" "NEUTRAL" None) in
  buffer (snd (process agg1 1 "Yahoo" "NVDA" "NVDA beats" "NEUTRAL" None)) !! "TSLA" =
    buffer agg1 !! "TSLA".
Proof.
  cbv zeta.
  apply (proj1 (process_other_symbols_untouched _ 1 "Yahoo" "NVDA" "NVDA beats" "NEUTRAL" None
    "TSLA" ltac:(discriminate))).
Defined.





Lemma add_tickers_insert_or_ignore_witness :
  NoDup (db_tickers (add_tickers (new_market_stream ∅ ["NVDA"] ∅) ["AAPL"; "NVDA"; "AAPL"])).
Proof.
  apply (proj2 (proj2 (add_tickers_insert_or_ignore (new_market_stream ∅ ["NVDA"] ∅)
    ["AAPL"; "NVDA"; "AAPL"]))).
  apply NoDup_singleton.
Defined.

Lemma poll_loops_partition_witness :
  let ms := mkMarketStream false ["NVDA"; "TSLA"] ["NVDA"] [] ∅ ∅ [] ∅ in
  ~ In "NVDA" (standard_list ms) /\ In "TSLA" (standard_list ms).
Proof.
  cbv zeta. split.
  - intros H. apply (proj1 (poll_loops_partition _) "NVDA") in H as [_ H].
    apply H. left. reflexivity.
  - apply (proj1 (poll_loops_partition _) "TSLA"). split.
    + right. left. reflexivity.
    + intros [H|[]]. discriminate H.
Defined.

Lemma poll_symbol_news_dedup_witness :
  let item u := mkYahooItem (mkYahooFields (Some "NVDA beats") None (Some "Reuters") None
                               (Some u) (Some "Strong quarter")) None in
  let r := _poll_symbol (new_market_stream ∅ [] ∅) "NVDA" false
             [(item "http://x/1", (0%Q, false)); (item "http://x/1", (1%Q, false));
              (item "http://x/2", (2%Q, false))] None in
  ("http://x/1" ∉ _news_dedup (new_market_stream ∅ [] ∅)) /\
  "http://x/1" ∈ _news_dedup (snd r) /\ "http://x/1" <> "".
Proof.
  intros item r.
  pose proof (poll_symbol_news_dedup (new_market_stream ∅ [] ∅) "NVDA" false
    [(item "http://x/1", (0%Q, false)); (item "http://x/1", (1%Q, false));
     (item "http://x/2", (2%Q, false))] None) as H.
  cbv zeta in H. destruct H as (_ & _ & Hu & _).
  apply Hu. vm_compute. left. reflexivity.
Defined.

Lemma poll_alpha_vantage_valid_symbols_witness :
  let item := mkAvItem (Some "NVDA beats") (Some "Strong quarter") (Some "http://x/1")
                (Some "Benzinga")
                [mkAvTickerSentiment (Some "NVDA") (Some "Bullish");
                 mkAvTickerSentiment (Some "BTC-USD") (Some "Neutral")] in
  let r := _poll_alpha_vantage (new_market_stream ∅ [] ∅) [(item, (0%Q, false))] in
  full_universe (snd r) = [] /\ "NVDA" <> "" /\ str_isalpha "NVDA" = true.
Proof.
  intros item r.
  pose proof (poll_alpha_vantage_valid_symbols (new_market_stream ∅ [] ∅)
    [(item, (0%Q, false))]) as H.
  cbv zeta in H. destruct H as (Hf & Hs).
  split; [exact Hf|]. exact (Hs "NVDA" ltac:(vm_compute; left; reflexivity)).
Defined.

Lemma av_tickers_shape_witness :
  str_contains "-" "BTC" = false /\ String.prefix "^" "BTC" = false.
Proof.
  apply (proj2 (av_tickers_shape ["BTC-USD"; "^GSPC"; "^DJI"; "AAPL"]) "BTC").
  vm_compute. left. reflexivity.
Defined.
